(** * FTC Platform MCP gateway: session router and tool dispatcher

    A shallow embedding of [src/server.ts] (class [FtcMcpServer]) and of
    [src/lib/api-client.ts] (class [VercelApiClient]), followed by the
    properties the specification states about them.

    Conventions.
    - A JavaScript string is a [string]; a JSON value is a [JValue]; the
      JavaScript [undefined] is the [None] of an [option].
    - A function that may throw returns a [Completion]; the handlers, which
      also talk to the upstream API, read the clock and touch the session
      table, run in the monad [M] over a [World].
    - [console.log]/[console.error] output is not modelled.
    - The two functions of the MCP SDK the router calls
      ([isInitializeRequest] and [transport.handleRequest]) are not part of
      the repository: the first is a section variable, the second is
      driven by a script of the callbacks the SDK makes. *)

From Stdlib Require Import ZArith String List.
From stdpp Require Import base option gmap strings list pretty.

Open Scope string_scope.

(** ** JavaScript values *)

Module JS.

(** A JSON value as [JSON.parse] produces it.  A number is carried by its
    canonical rendering ([Number::toString], e.g. ["0"], ["42"], ["1.5"],
    ["NaN"]): the gateway applies only [ToBoolean] and [ToString] to
    numbers, and both are functions of that rendering (["-0"] renders as
    ["0"]).  An object is the list of its own enumerable properties in
    enumeration order; keys of a well-formed object are pairwise
    distinct. *)
#[local] Set Warnings "-register-all".
Inductive JValue : Type :=
  | JNull
  | JBool (b : bool)
  | JNum (rendering : string)
  | JStr (s : string)
  | JArr (items : list JValue)
  | JObj (props : list (string * JValue)).

Definition JObject : Type := list (string * JValue).

(** What a [throw] carries: an instance of [Error] (this includes
    [TypeError], [SyntaxError] and node-fetch's [FetchError]) with its
    [message], or any other value. *)
Inductive Thrown : Type :=
  | JsError (message : string)
  | NonError (v : JValue).

Inductive Completion (A : Type) : Type :=
  | Normal (a : A)
  | Abrupt (e : Thrown).
Arguments Normal {A} a.
Arguments Abrupt {A} e.

Definition LF : string := String (Ascii.ascii_of_nat 10) EmptyString.

(** [ToBoolean] on a string, on a JSON value, and on a possibly undefined
    value. *)
Definition truthy_string (s : string) : bool :=
  match s with
  | EmptyString => false
  | String _ _ => true
  end.

Definition truthy (v : JValue) : bool :=
  match v with
  | JNull => false
  | JBool b => b
  | JNum r => negb (String.eqb r "0" || String.eqb r "NaN")
  | JStr s => truthy_string s
  | JArr _ => true
  | JObj _ => true
  end.

Definition truthy_opt (v : option JValue) : bool :=
  match v with
  | None => false
  | Some x => truthy x
  end.

Definition truthy_opt_string (s : option string) : bool :=
  match s with
  | None => false
  | Some x => truthy_string x
  end.

(** [ToString], as a template literal applies it. An array is joined with
    commas ([Array.prototype.join] renders [null] elements as the empty
    string and converts the others in order). A plain object goes through
    [OrdinaryToPrimitive]: an own property named [toString] hides
    [Object.prototype.toString] and, being JSON, is not callable, and
    [valueOf] then yields no primitive either, so the conversion throws a
    [TypeError] (the message is the one Node's engine gives); without such
    a property the result is ["[object Object]"]. *)
Fixpoint ToString (v : JValue) : Completion string :=
  match v with
  | JNull => Normal "null"
  | JBool true => Normal "true"
  | JBool false => Normal "false"
  | JNum r => Normal r
  | JStr s => Normal s
  | JArr items =>
      (fix join (l : list JValue) : Completion string :=
         match l with
         | [] => Normal ""
         | x :: rest =>
             match (match x with JNull => Normal "" | _ => ToString x end) with
             | Abrupt e => Abrupt e
             | Normal first =>
                 match rest with
                 | [] => Normal first
                 | _ :: _ =>
                     match join rest with
                     | Abrupt e => Abrupt e
                     | Normal others => Normal (first +:+ "," +:+ others)
                     end
                 end
             end
         end) items
  | JObj props =>
      match (fix own (k : string) (o : list (string * JValue)) : bool :=
               match o with
               | [] => false
               | (k', _) :: rest => if String.eqb k k' then true else own k rest
               end) "toString" props with
      | true => Abrupt (JsError "Cannot convert object to primitive value")
      | false => Normal "[object Object]"
      end
  end.

(** Own-property lookup and assignment on an object. Assignment keeps the
    position of a key that is already there and appends a new one. *)
Fixpoint obj_get (k : string) (o : JObject) : option JValue :=
  match o with
  | [] => None
  | (k', v) :: rest => if String.eqb k k' then Some v else obj_get k rest
  end.

Fixpoint obj_set (k : string) (v : JValue) (o : JObject) : JObject :=
  match o with
  | [] => [(k, v)]
  | (k', v') :: rest =>
      if String.eqb k k' then (k', v) :: rest else (k', v') :: obj_set k v rest
  end.

(** [v.k] for a key that no prototype defines: [TypeError] on [null],
    [undefined] on the other primitives and on arrays. The message is the
    one Node's engine gives. *)
Definition get_prop (v : JValue) (k : string) : Completion (option JValue) :=
  match v with
  | JNull =>
      Abrupt (JsError ("Cannot read properties of null (reading '" +:+ k +:+ "')"))
  | JObj o => Normal (obj_get k o)
  | _ => Normal None
  end.

(** [a ?? d] followed by [ToString]. *)
Definition nullish_or (v : option JValue) (d : string) : Completion string :=
  match v with
  | None | Some JNull => Normal d
  | Some x => ToString x
  end.

(** The UTF-16 code units of a string, which is held here as UTF-8 bytes:
    a sequence of one, two or three bytes is one code unit; a sequence of
    four bytes is a code point above U+FFFF and gives its two surrogates,
    each written in the three-byte form; a byte that starts no sequence
    stands for itself. *)
Definition continuation (a : Ascii.ascii) : bool :=
  let n := Ascii.N_of_ascii a in (N.leb 128 n && N.leb n 191)%N.

Definition three_bytes (u : N) : string :=
  String (Ascii.ascii_of_N (224 + u / 4096)%N)
    (String (Ascii.ascii_of_N (128 + (u / 64) mod 64)%N)
       (String (Ascii.ascii_of_N (128 + u mod 64)%N) EmptyString)).

Definition surrogates (a b c d : Ascii.ascii) : list string :=
  let code := ((Ascii.N_of_ascii a mod 8) * 262144
               + (Ascii.N_of_ascii b mod 64) * 4096
               + (Ascii.N_of_ascii c mod 64) * 64
               + Ascii.N_of_ascii d mod 64)%N in
  let offset := (code - 65536)%N in
  [three_bytes (55296 + offset / 1024)%N; three_bytes (56320 + offset mod 1024)%N].

Fixpoint code_units (s : string) : list string :=
  match s with
  | EmptyString => []
  | String a r1 =>
      let alone := String a EmptyString :: code_units r1 in
      let n := Ascii.N_of_ascii a in
      if N.ltb n 128%N then alone
      else
        match r1 with
        | EmptyString => alone
        | String b r2 =>
            if (N.leb 194 n && N.leb n 223)%N && continuation b
            then String a (String b EmptyString) :: code_units r2
            else
              match r2 with
              | EmptyString => alone
              | String c r3 =>
                  if (N.leb 224 n && N.leb n 239)%N && continuation b && continuation c
                  then String a (String b (String c EmptyString)) :: code_units r3
                  else
                    match r3 with
                    | EmptyString => alone
                    | String d r4 =>
                        if (N.leb 240 n && N.leb n 244)%N && continuation b
                           && continuation c && continuation d
                        then surrogates a b c d ++ code_units r4
                        else alone
                    end
              end
        end
  end.

Fixpoint items_from (i : nat) (l : list JValue) : JObject :=
  match l with
  | [] => []
  | x :: rest => (pretty i, x) :: items_from (S i) rest
  end.

(** The properties an object spread [{...v}] copies. *)
Definition spread (v : JValue) : JObject :=
  match v with
  | JObj o => o
  | JArr items => items_from 0 items
  | JStr s => items_from 0 (map JStr (code_units s))
  | _ => []
  end.

End JS.
Export JS.

(** ** The upstream client ([src/lib/api-client.ts]) *)

(** [process.env] once [dotenv] has run. *)
Abbreviation Env := (gmap string string).

Record VercelApiClient : Type := {
  baseUrl : string;
  apiKey : string;
}.

(** [new VercelApiClient()] *)
Definition new_VercelApiClient (env : Env) : Completion VercelApiClient :=
  let baseUrl := default "http://localhost:3000/api/mastra" (env !! "VERCEL_API_BASE_URL") in
  let apiKey := default "" (env !! "MASTRA_API_KEY") in
  if negb (truthy_string apiKey)
  then Abrupt (JsError "MASTRA_API_KEY environment variable is required")
  else Normal {| baseUrl := baseUrl; apiKey := apiKey |}.

Record ClientStatus : Type := {
  configured : bool;
  status_baseUrl : string;
  hasApiKey : bool;
}.

(** [getStatus()] *)
Definition getStatus (c : VercelApiClient) : ClientStatus :=
  {| configured := truthy_string (baseUrl c) && truthy_string (apiKey c);
     status_baseUrl := baseUrl c;
     hasApiKey := truthy_string (apiKey c) |}.

Definition bool_text (b : bool) : string := if b then "true" else "false".

(** The status as the JSON object it is serialised to. *)
Definition status_json (s : ClientStatus) : JValue :=
  JObj [("configured", JBool (configured s));
        ("baseUrl", JStr (status_baseUrl s));
        ("hasApiKey", JBool (hasApiKey s))].

(** ** The world the handlers run in *)

(** One outbound request: [fetch(url, { method: 'GET', headers })]. *)
Record FetchCall : Type := {
  url : string;
  authorization : string;
  contentType : string;
  userAgent : string;
}.

(** A node-fetch [Response]: [ok] is its own getter; [text()] and [json()]
    read the body and may reject. *)
Record FetchResponse : Type := {
  ok : bool;
  status : Z;
  statusText : string;
  text : Completion string;
  json : Completion JValue;
}.

Inductive FetchOutcome : Type :=
  | FetchRejected (e : Thrown)
  | FetchResolved (r : FetchResponse).

(** A transport object: its identity and the [sessionId] property the SDK
    sets when the session is initialised. *)
Record Transport : Type := {
  transport_id : nat;
  sessionId : option string;
}.

(** - [transports]: the session table [this.transports];
    - [allocated]: how many transports have been constructed;
    - [upstream]: the reply the upstream API gives to the n-th request
      issued (the stub of the upstream);
    - [fetched]: the requests issued so far, oldest first;
    - [clock]: what [new Date().toISOString()] returns. *)
Record World : Type := {
  transports : gmap string Transport;
  allocated : nat;
  upstream : nat -> FetchCall -> FetchOutcome;
  fetched : list FetchCall;
  clock : string;
}.

Definition M (A : Type) : Type := World -> Completion A * World.

Definition ret {A} (a : A) : M A := fun w => (Normal a, w).
Definition throw {A} (e : Thrown) : M A := fun w => (Abrupt e, w).
Definition bind {A B} (m : M A) (k : A -> M B) : M B :=
  fun w =>
    match m w with
    | (Normal a, w') => k a w'
    | (Abrupt e, w') => (Abrupt e, w')
    end.
Definition try_catch {A} (body : M A) (handler : Thrown -> M A) : M A :=
  fun w =>
    match body w with
    | (Normal a, w') => (Normal a, w')
    | (Abrupt e, w') => handler e w'
    end.
Definition lift {A} (c : Completion A) : M A := fun w => (c, w).

Declare Scope js_scope.
Delimit Scope js_scope with js.
Notation "x <- m ;; k" := (bind m (fun x => k))
  (at level 100, m at next level, right associativity) : js_scope.
Open Scope js_scope.

(** [await fetch(...)]: the call is recorded and the upstream's reply to
    it is delivered. *)
Definition fetch (c : FetchCall) : M FetchResponse :=
  fun w =>
    let w' := {| transports := transports w; allocated := allocated w;
                 upstream := upstream w; fetched := fetched w ++ [c];
                 clock := clock w |} in
    match upstream w (length (fetched w)) c with
    | FetchRejected e => (Abrupt e, w')
    | FetchResolved r => (Normal r, w')
    end.

(** [new Date().toISOString()] *)
Definition Date_toISOString : M string := fun w => (Normal (clock w), w).

(** [makeRequest<T>(endpoint)] *)
Definition makeRequest (c : VercelApiClient) (endpoint : string) : M JValue :=
  let url := baseUrl c +:+ endpoint in
  response <- fetch {| url := url;
                       authorization := "Bearer " +:+ apiKey c;
                       contentType := "application/json";
                       userAgent := "FTC-MCP-Server/1.0.0" |} ;;
  if negb (ok response) then
    errorText <- lift (text response) ;;
    throw (JsError ("API request failed: " +:+ pretty (status response) +:+ " "
                    +:+ statusText response +:+ LF +:+ "Response: " +:+ errorText))
  else
    data <- lift (json response) ;;
    success <- lift (get_prop data "success") ;;
    if negb (truthy_opt success) then
      error <- lift (get_prop data "error") ;;
      errorText <- lift (nullish_or error "Unknown error") ;;
      details <- lift (get_prop data "details") ;;
      detailsText <- lift (nullish_or details "No details") ;;
      throw (JsError ("API returned error: " +:+ errorText
                      +:+ LF +:+ "Details: " +:+ detailsText))
    else
      payload <- lift (get_prop data "data") ;;
      match payload with
      | Some d => if truthy d then ret d
                  else throw (JsError "API returned success but no data")
      | None => throw (JsError "API returned success but no data")
      end.

(** [testConnection()] *)
Definition testConnection (c : VercelApiClient) : M JValue :=
  makeRequest c "/test".

(** The four operations that take an event id share one shape:
    [if (!eventId) throw ...; return this.makeRequest(`/events/${eventId}/...`)];
    the template literal converts the id before [makeRequest] is called. *)
Definition event_request (c : VercelApiClient) (eventId : option JValue)
    (suffix : string) : M JValue :=
  match eventId with
  | Some v =>
      if negb (truthy v) then throw (JsError "eventId is required")
      else
        id <- lift (ToString v) ;;
        makeRequest c ("/events/" +:+ id +:+ suffix)
  | None => throw (JsError "eventId is required")
  end.

Definition getEventApplications c eventId := event_request c eventId "/applications".
Definition getEventEvaluations c eventId := event_request c eventId "/evaluations".
Definition getEvaluationCriteria c eventId := event_request c eventId "/criteria".
Definition getApplicationQuestions c eventId := event_request c eventId "/questions".

(** ** The tool registry and the two request handlers ([setupToolHandlers]) *)

Record PropertySchema : Type := {
  property_type : string;
  property_description : string;
}.

Record InputSchema : Type := {
  schema_type : string;
  properties : list (string * PropertySchema);
  required : list string;
}.

Record Tool : Type := {
  tool_name : string;
  tool_description : string;
  inputSchema : InputSchema;
}.

Definition eventId_schema (description : string) : InputSchema :=
  {| schema_type := "object";
     properties := [("eventId", {| property_type := "string";
                                   property_description := description |})];
     required := ["eventId"] |}.

(** The list the [ListToolsRequestSchema] handler returns. *)
Definition tools : list Tool :=
  [ {| tool_name := "test_connection";
       tool_description := "Test connection to the FTC Platform API and verify the MCP server is working properly";
       inputSchema := {| schema_type := "object"; properties := []; required := [] |} |};
    {| tool_name := "get_event_applications";
       tool_description := "Get all applications for a specific event with complete data for AI analysis and ranking. Returns applicant information, responses to all questions, and metadata for evaluation.";
       inputSchema := eventId_schema "The unique ID of the event to fetch applications for" |};
    {| tool_name := "get_event_evaluations";
       tool_description := "Get completed evaluations for applications in a specific event. Includes reviewer scores, comments, recommendations, and statistics for AI analysis of human evaluation patterns.";
       inputSchema := eventId_schema "The unique ID of the event to fetch evaluations for" |};
    {| tool_name := "get_evaluation_criteria";
       tool_description := "Get evaluation criteria categorized for AI understanding. Provides scoring rubrics, weights, and guidelines used by human reviewers for consistent AI application scoring.";
       inputSchema := eventId_schema "The unique ID of the event to get evaluation criteria for (provides context)" |};
    {| tool_name := "get_application_questions";
       tool_description := "Get application questions structure and metadata. Provides the complete question set, types, and requirements for understanding application data format and content.";
       inputSchema := eventId_schema "The unique ID of the event to fetch application questions for" |} ].

Definition ListTools_handler : M (list Tool) := ret tools.

(** [request.params] of a [tools/call] request, as the SDK's schema
    admits it: a string and an optional record. *)
Record CallToolRequest : Type := {
  call_name : string;
  call_arguments : option JObject;
}.

(** [JSON.stringify(value, null, space)], kept as the call it is. *)
Inductive Rendered : Type :=
  | JSON_stringify (value : JValue) (space : nat).

Record TextContent : Type := {
  content_type : string;
  content_text : Rendered;
}.

(** [isError] is [None] where the returned object has no such property. *)
Record CallToolResult : Type := {
  content : list TextContent;
  isError : option bool;
}.

Definition text_block (v : JValue) : list TextContent :=
  [ {| content_type := "text"; content_text := JSON_stringify v 2 |} ].

Definition success_result (v : JValue) : CallToolResult :=
  {| content := text_block v; isError := None |}.

Definition failure_payload (errorMessage name timestamp : string) : JValue :=
  JObj [("success", JBool false);
        ("error", JStr errorMessage);
        ("tool", JStr name);
        ("timestamp", JStr timestamp);
        ("details", JStr ("Failed to execute MCP tool: " +:+ name))].

Definition failure_result (errorMessage name timestamp : string) : CallToolResult :=
  {| content := text_block (failure_payload errorMessage name timestamp);
     isError := Some true |}.

(** [error instanceof Error ? error.message : "Unknown error occurred"] *)
Definition error_message (error : Thrown) : string :=
  match error with
  | JsError m => m
  | NonError _ => "Unknown error occurred"
  end.

(** [const { eventId } = args as { eventId: string }]: a [TypeError] when
    [args] is [undefined] (the message is the one Node's engine gives). *)
Definition destructure_eventId (args : option JObject) : Completion (option JValue) :=
  match args with
  | None =>
      Abrupt (JsError "Cannot destructure property 'eventId' of 'args' as it is undefined.")
  | Some o => Normal (obj_get "eventId" o)
  end.

(** The body shared by the four [case]s that take an event id; they differ
    in the client operation only. *)
Definition event_tool (args : option JObject)
    (operation : option JValue -> M JValue) : M CallToolResult :=
  eventId <- lift (destructure_eventId args) ;;
  if negb (truthy_opt eventId) then throw (JsError "eventId is required")
  else
    result <- operation eventId ;;
    ret (success_result result).

(** [{ ...result, mcpServer, version, apiClient: this.apiClient.getStatus() }] *)
Definition connection_report (client : VercelApiClient) (result : JValue) : JValue :=
  JObj (obj_set "apiClient" (status_json (getStatus client))
         (obj_set "version" (JStr "1.0.0")
           (obj_set "mcpServer" (JStr "ftc-platform-mcp") (spread result)))).

(** The [switch (name)] inside the [try]. *)
Definition dispatch (client : VercelApiClient) (name : string)
    (args : option JObject) : M CallToolResult :=
  if String.eqb name "test_connection" then
    result <- testConnection client ;;
    ret (success_result (connection_report client result))
  else if String.eqb name "get_event_applications" then
    event_tool args (getEventApplications client)
  else if String.eqb name "get_event_evaluations" then
    event_tool args (getEventEvaluations client)
  else if String.eqb name "get_evaluation_criteria" then
    event_tool args (getEvaluationCriteria client)
  else if String.eqb name "get_application_questions" then
    event_tool args (getApplicationQuestions client)
  else throw (JsError ("Unknown tool: " +:+ name)).

(** The [CallToolRequestSchema] handler. *)
Definition CallTool_handler (client : VercelApiClient)
    (request : CallToolRequest) : M CallToolResult :=
  let name := call_name request in
  let args := call_arguments request in
  try_catch (dispatch client name args)
    (fun error =>
       let errorMessage := error_message error in
       timestamp <- Date_toISOString ;;
       ret (failure_result errorMessage name timestamp)).

(** ** The port *)

(** [parseInt(s, 10)]. The string is read as UTF-8 bytes; leading white
    space and line terminators are skipped, then an optional sign, then
    the longest run of decimal digits is read; [None] is [NaN]. The
    result is the exact integer the digits denote (JavaScript rounds it
    to a double, which changes nothing below 2^53), and [-0] is [0]. *)
Definition is_space_byte (a : Ascii.ascii) : bool :=
  let n := Ascii.nat_of_ascii a in
  Nat.eqb n 9 || Nat.eqb n 10 || Nat.eqb n 11 || Nat.eqb n 12 || Nat.eqb n 13
  || Nat.eqb n 32.

(** U+00A0 *)
Definition is_space_2 (a b : Ascii.ascii) : bool :=
  (Nat.eqb (Ascii.nat_of_ascii a) 194) && (Nat.eqb (Ascii.nat_of_ascii b) 160).

(** U+1680, U+2000 to U+200A, U+2028, U+2029, U+202F, U+205F, U+3000, U+FEFF *)
Definition is_space_3 (a b c : Ascii.ascii) : bool :=
  let x := Ascii.nat_of_ascii a in
  let y := Ascii.nat_of_ascii b in
  let z := Ascii.nat_of_ascii c in
  ((Nat.eqb x 225) && (Nat.eqb y 154) && (Nat.eqb z 128))
  || ((Nat.eqb x 226) && (Nat.eqb y 128)
      && ((Nat.leb 128 z && Nat.leb z 138) || Nat.eqb z 168 || Nat.eqb z 169
          || Nat.eqb z 175))
  || ((Nat.eqb x 226) && (Nat.eqb y 129) && (Nat.eqb z 159))
  || ((Nat.eqb x 227) && (Nat.eqb y 128) && (Nat.eqb z 128))
  || ((Nat.eqb x 239) && (Nat.eqb y 187) && (Nat.eqb z 191)).

Fixpoint skip_white_space (s : string) : string :=
  match s with
  | EmptyString => s
  | String a r1 =>
      if is_space_byte a then skip_white_space r1
      else
        match r1 with
        | EmptyString => s
        | String b r2 =>
            if is_space_2 a b then skip_white_space r2
            else
              match r2 with
              | EmptyString => s
              | String c r3 => if is_space_3 a b c then skip_white_space r3 else s
              end
        end
  end.

Definition digit_value (c : Ascii.ascii) : option Z :=
  let n := Ascii.nat_of_ascii c in
  if Nat.leb 48 n && Nat.leb n 57 then Some (Z.of_nat (n - 48)) else None.

(** The value of the longest prefix of digits, [None] when there is no
    digit; [acc] is the value read so far and [seen] tells whether a digit
    has been read. *)
Fixpoint leading_digits (acc : Z) (seen : bool) (s : string) : option Z :=
  match s with
  | EmptyString => if seen then Some acc else None
  | String c rest =>
      match digit_value c with
      | Some d => leading_digits (10 * acc + d) true rest
      | None => if seen then Some acc else None
      end
  end.

Definition parseInt10 (s : string) : option Z :=
  match skip_white_space s with
  | EmptyString => None
  | String c rest =>
      if Nat.eqb (Ascii.nat_of_ascii c) 45 (* - *)
      then Z.opp <$> leading_digits 0 false rest
      else if Nat.eqb (Ascii.nat_of_ascii c) 43 (* + *)
      then leading_digits 0 false rest
      else leading_digits 0 false (String c rest)
  end.

(** [parseInt(process.env.MCP_PORT || '3001', 10)] *)
Definition server_port (env : Env) : option Z :=
  parseInt10 (match env !! "MCP_PORT" with
              | Some p => if truthy_string p then p else "3001"
              | None => "3001"
              end).

(** ** Start-up ([constructor], [validateConfiguration], [main]) *)

Record FtcMcpServer : Type := {
  apiClient : VercelApiClient;
  initial_transports : gmap string Transport;
}.

Definition validateConfiguration (client : VercelApiClient) : Completion unit :=
  let status := getStatus client in
  if negb (configured status) then
    Abrupt (JsError ("MCP Server configuration invalid:" +:+ LF
      +:+ "- Base URL: " +:+ status_baseUrl status +:+ LF
      +:+ "- Has API Key: " +:+ bool_text (hasApiKey status) +:+ LF +:+ LF
      +:+ "Please ensure VERCEL_API_BASE_URL and MASTRA_API_KEY are set in your environment."))
  else Normal tt.

(** [new FtcMcpServer()]: the express wiring is left out, and the port,
    which the constructor reads with [server_port], is not stored. *)
Definition new_FtcMcpServer (env : Env) : Completion FtcMcpServer :=
  match new_VercelApiClient env with
  | Abrupt e => Abrupt e
  | Normal client =>
      match validateConfiguration client with
      | Abrupt e => Abrupt e
      | Normal _ => Normal {| apiClient := client; initial_transports := ∅ |}
      end
  end.

(** [Listening]: [app.listen] has accepted the port and the server waits
    for connections (what the operating system later answers to the bind
    is not modelled); [Exited]: [process.exit] was called. *)
Inductive Process : Type :=
  | Listening (server : FtcMcpServer)
  | Exited (code : Z).

(** The port [app.listen] accepts: an integer from 0 to 65535. *)
Definition valid_port (port : option Z) : bool :=
  match port with
  | Some p => Z.leb 0 p && Z.leb p 65535
  | None => false
  end.

(** [start()]: [this.app.listen(this.port, ...)], which throws a
    [RangeError] at once when the port is [NaN] or out of range. The port
    is the one the constructor read from the environment. *)
Definition start (env : Env) (server : FtcMcpServer) : Completion Process :=
  if valid_port (server_port env) then Normal (Listening server)
  else Abrupt (JsError "options.port should be >= 0 and < 65536.").

(** [main()]: the constructor and [start()] run inside one [try]; when
    either throws, [main] ends in [process.exit(1)]. *)
Definition main (env : Env) : Process :=
  match new_FtcMcpServer env with
  | Normal server =>
      match start env server with
      | Normal running => running
      | Abrupt _ => Exited 1
      end
  | Abrupt _ => Exited 1
  end.

(** The world a freshly started server runs in. *)
Definition boot (server : FtcMcpServer)
    (up : nat -> FetchCall -> FetchOutcome) (now : string) : World :=
  {| transports := initial_transports server; allocated := 0;
     upstream := up; fetched := []; clock := now |}.

(** ** The session table and the [/mcp] endpoint ([setupHttpEndpoints]) *)

Definition with_transports (f : gmap string Transport -> gmap string Transport)
    (w : World) : World :=
  {| transports := f (transports w); allocated := allocated w;
     upstream := upstream w; fetched := fetched w; clock := clock w |}.

(** [this.transports.get(k)], [.set(k, t)] and [.delete(k)] *)
Definition Map_get (k : string) : M (option Transport) :=
  fun w => (Normal (transports w !! k), w).
Definition Map_set (k : string) (t : Transport) : M unit :=
  fun w => (Normal tt, with_transports (insert k t) w).
Definition Map_delete (k : string) : M unit :=
  fun w => (Normal tt, with_transports (delete k) w).

(** [new StreamableHTTPServerTransport({...})]: a new object, without a
    session id yet. *)
Definition new_transport : M Transport :=
  fun w =>
    (Normal {| transport_id := allocated w; sessionId := None |},
     {| transports := transports w; allocated := S (allocated w);
        upstream := upstream w; fetched := fetched w; clock := clock w |}).

(** An HTTP request to [/mcp]: its method, its [mcp-session-id] header and
    its parsed body ([undefined] when no JSON body came with it). *)
Record HttpRequest : Type := {
  method : string;
  mcp_session_id : option string;
  body : option JValue;
}.

Inductive JsonRpcCall : Type :=
  | ToolsList
  | ToolsCall (request : CallToolRequest).

Inductive HandlerResult : Type :=
  | ToolList (listed : list Tool)
  | ToolResult (result : CallToolResult).

(** What the SDK does, in order, while [transport.handleRequest] runs:
    - [SessionInitialized id]: it draws [id] from [sessionIdGenerator],
      stores it in [transport.sessionId] and calls [onsessioninitialized];
    - [Dispatch call]: it invokes the handler registered for the method;
    - [Reject e]: the promise rejects with [e];
    - [TransportClose]: it closes the transport, which calls the
      transport's [onclose]. *)
Inductive SdkStep : Type :=
  | SessionInitialized (newSessionId : string)
  | Dispatch (call : JsonRpcCall)
  | Reject (e : Thrown)
  | TransportClose.

(** What the endpoint answers: one of its own JSON-RPC error bodies (the
    HTTP status, then [error.code], [error.message] and [error.data]; the
    constant [jsonrpc: '2.0'] and [id: null] are left out), or whatever the
    transport the request was handed to produced. *)
Inductive McpResponse : Type :=
  | JsonRpcError (http_status : Z) (code : Z) (message : string) (data : option string)
  | Handled (by_transport : Transport) (results : list HandlerResult).

Definition SessionInvalid : McpResponse :=
  JsonRpcError 400 (-32000) "Invalid session ID or session expired" None.
Definition SessionMissing : McpResponse :=
  JsonRpcError 400 (-32000) "No session ID provided. Initialize first." None.

(** [transport.onclose] *)
Definition onclose (t : Transport) : M unit :=
  match sessionId t with
  | Some sid => if truthy_string sid then Map_delete sid else ret tt
  | None => ret tt
  end.

(** [await transport.handleRequest(req, res, req.body)] dispatches on the
    HTTP method inside the SDK. [handleRequest] is its handling of a
    request that is not a DELETE, following the script: sessions are
    initialised and handlers invoked there, and the transport is not
    closed. A transport initialises its session once: the SDK refuses a
    second initialisation of a transport that has a session id. The
    [onsessioninitialized] callback is the one given to the constructor:
    [this.transports.set(newSessionId, transport)]. *)
Fixpoint handleRequest (client : VercelApiClient) (t : Transport)
    (script : list SdkStep) : M (Transport * list HandlerResult) :=
  match script with
  | [] => ret (t, [])
  | SessionInitialized newSessionId :: rest =>
      match sessionId t with
      | None =>
          let t' := {| transport_id := transport_id t;
                       sessionId := Some newSessionId |} in
          _ <- Map_set newSessionId t' ;;
          handleRequest client t' rest
      | Some _ => handleRequest client t rest
      end
  | Dispatch ToolsList :: rest =>
      listed <- ListTools_handler ;;
      r <- handleRequest client t rest ;;
      ret (fst r, ToolList listed :: snd r)
  | Dispatch (ToolsCall request) :: rest =>
      result <- CallTool_handler client request ;;
      r <- handleRequest client t rest ;;
      ret (fst r, ToolResult result :: snd r)
  | Reject e :: _ => throw e
  | TransportClose :: rest => handleRequest client t rest
  end.

(** The SDK's handling of a DELETE, the request by which a client ends
    its session: the transport is closed, which runs [onclose]; no session
    is initialised and no handler invoked. *)
Fixpoint handleDeleteRequest (t : Transport) (script : list SdkStep)
    : M (Transport * list HandlerResult) :=
  match script with
  | [] => ret (t, [])
  | TransportClose :: rest =>
      _ <- onclose t ;;
      handleDeleteRequest t rest
  | Reject e :: _ => throw e
  | _ :: rest => handleDeleteRequest t rest
  end.

Definition transport_handleRequest (client : VercelApiClient) (t : Transport)
    (req : HttpRequest) (script : list SdkStep) : M (Transport * list HandlerResult) :=
  if String.eqb (method req) "DELETE" then handleDeleteRequest t script
  else handleRequest client t script.

Inductive Event : Type :=
  | Incoming (req : HttpRequest) (script : list SdkStep)
  | TransportClosed (t : Transport)
  | ClockAdvanced (now : string).

Section Router.

(** The SDK's guard [isInitializeRequest] and the server's
    [this.apiClient]. *)
Variable isInitializeRequest : option JValue -> bool.
Variable client : VercelApiClient.

(** A handshake, as the endpoint recognises it. *)
Definition is_handshake (req : HttpRequest) : bool :=
  String.eqb (method req) "POST" && isInitializeRequest (body req).

(** The [app.all('/mcp', ...)] handler. *)
Definition mcp_endpoint (req : HttpRequest) (script : list SdkStep) : M McpResponse :=
  try_catch
    (let sessionId := mcp_session_id req in
     transport <- (match sessionId with
                   | Some sid => if truthy_string sid then Map_get sid else ret None
                   | None => ret None
                   end) ;;
     match transport with
     | None =>
         if String.eqb (method req) "POST" && isInitializeRequest (body req) then
           fresh <- new_transport ;;
           r <- transport_handleRequest client fresh req script ;;
           ret (Handled (fst r) (snd r))
         else if truthy_opt_string sessionId then ret SessionInvalid
         else ret SessionMissing
     | Some found =>
         r <- transport_handleRequest client found req script ;;
         ret (Handled (fst r) (snd r))
     end)
    (fun error =>
       ret (JsonRpcError 500 (-32603) "Internal error"
              (Some (match error with
                     | JsError m => m
                     | NonError _ => "Unknown error"
                     end)))).

(** One event of the server's life and what the client sees of it. *)
Definition serve (e : Event) (w : World) : option McpResponse * World :=
  match e with
  | Incoming req script =>
      match mcp_endpoint req script w with
      | (Normal r, w') => (Some r, w')
      | (Abrupt _, w') => (None, w')
      end
  | TransportClosed t => (None, snd (onclose t w))
  | ClockAdvanced now =>
      (None, {| transports := transports w; allocated := allocated w;
                upstream := upstream w; fetched := fetched w; clock := now |})
  end.

Fixpoint run (events : list Event) (w : World) : list (option McpResponse) * World :=
  match events with
  | [] => ([], w)
  | e :: rest =>
      let '(r, w') := serve e w in
      let '(rs, w'') := run rest w' in
      (r :: rs, w'')
  end.

End Router.

(** A recogniser that looks at the method only; it stands for the SDK's
    guard where the router is run on concrete requests. *)
Definition has_initialize_method (v : option JValue) : bool :=
  match v with
  | Some (JObj o) =>
      match obj_get "method" o with
      | Some (JStr m) => String.eqb m "initialize"
      | _ => false
      end
  | _ => false
  end.

(** ** The health probe *)

(** The body the [/health] route answers with. *)
Record HealthReport : Type := {
  health_status : string;
  health_timestamp : string;
  health_server : string;
  health_version : string;
  health_apiClient : ClientStatus;
  activeSessions : nat;
}.

(** [this.transports.size] *)
Definition Map_size : M nat := fun w => (Normal (size (transports w)), w).

(** The [app.get('/health', ...)] handler. *)
Definition health_endpoint (client : VercelApiClient) : M HealthReport :=
  let status := getStatus client in
  timestamp <- Date_toISOString ;;
  sessions <- Map_size ;;
  ret {| health_status := "ok"; health_timestamp := timestamp;
         health_server := "ftc-platform-mcp"; health_version := "1.0.0";
         health_apiClient := status; activeSessions := sessions |}.

(** ** Vocabulary of the properties *)

(** The tool declares [eventId] among its [required] parameters. *)
Definition requires_eventId (t : Tool) : bool :=
  existsb (String.eqb "eventId") (required (inputSchema t)).

(** The world once [call] has been issued. *)
Definition issued (call : FetchCall) (w : World) : World :=
  {| transports := transports w; allocated := allocated w;
     upstream := upstream w; fetched := fetched w ++ [call];
     clock := clock w |}.

(** The request [makeRequest] sends for [endpoint]. *)
Definition request_for (client : VercelApiClient) (endpoint : string) : FetchCall :=
  {| url := baseUrl client +:+ endpoint;
     authorization := "Bearer " +:+ apiKey client;
     contentType := "application/json";
     userAgent := "FTC-MCP-Server/1.0.0" |}.

(** [data.k] on a parsed body that is not [null]. *)
Definition field (data : JValue) (k : string) : option JValue :=
  match data with
  | JObj o => obj_get k o
  | _ => None
  end.

(** The ways an upstream call fails, each with the message of the error
    [makeRequest] ends with: the request itself fails; the status is not
    a success status (the body read or not); the body is not JSON, or is
    [null]; the payload does not signal success (its [error] and
    [details] rendered into the message, or one of them not convertible
    to a string); the payload signals success and has no data. *)
Inductive UpstreamFailure : FetchOutcome -> string -> Prop :=
  | network_failure (e : Thrown) :
      UpstreamFailure (FetchRejected e) (error_message e)
  | failure_status (r : FetchResponse) (errorText : string) :
      ok r = false -> text r = Normal errorText ->
      UpstreamFailure (FetchResolved r)
        ("API request failed: " +:+ pretty (status r) +:+ " " +:+ statusText r
         +:+ LF +:+ "Response: " +:+ errorText)
  | failure_status_unread (r : FetchResponse) (e : Thrown) :
      ok r = false -> text r = Abrupt e ->
      UpstreamFailure (FetchResolved r) (error_message e)
  | malformed_body (r : FetchResponse) (e : Thrown) :
      ok r = true -> json r = Abrupt e ->
      UpstreamFailure (FetchResolved r) (error_message e)
  | null_body (r : FetchResponse) :
      ok r = true -> json r = Normal JNull ->
      UpstreamFailure (FetchResolved r)
        "Cannot read properties of null (reading 'success')"
  | success_false (r : FetchResponse) (data : JValue) (errorText detailsText : string) :
      ok r = true -> json r = Normal data -> data <> JNull ->
      truthy_opt (field data "success") = false ->
      nullish_or (field data "error") "Unknown error" = Normal errorText ->
      nullish_or (field data "details") "No details" = Normal detailsText ->
      UpstreamFailure (FetchResolved r)
        ("API returned error: " +:+ errorText
         +:+ LF +:+ "Details: " +:+ detailsText)
  | error_not_convertible (r : FetchResponse) (data : JValue) (e : Thrown) :
      ok r = true -> json r = Normal data -> data <> JNull ->
      truthy_opt (field data "success") = false ->
      nullish_or (field data "error") "Unknown error" = Abrupt e ->
      UpstreamFailure (FetchResolved r) (error_message e)
  | details_not_convertible (r : FetchResponse) (data : JValue) (errorText : string)
      (e : Thrown) :
      ok r = true -> json r = Normal data -> data <> JNull ->
      truthy_opt (field data "success") = false ->
      nullish_or (field data "error") "Unknown error" = Normal errorText ->
      nullish_or (field data "details") "No details" = Abrupt e ->
      UpstreamFailure (FetchResolved r) (error_message e)
  | success_without_data (r : FetchResponse) (data : JValue) :
      ok r = true -> json r = Normal data ->
      truthy_opt (field data "success") = true ->
      truthy_opt (field data "data") = false ->
      UpstreamFailure (FetchResolved r) "API returned success but no data".

(** The endpoint a tool invocation asks the upstream for, if it gets
    that far: it does not when the event id is missing, falsy or not
    convertible to a string. *)
Definition event_endpoint (args : option JObject) (suffix : string) : option string :=
  match args with
  | Some o =>
      match obj_get "eventId" o with
      | Some v =>
          if truthy v then
            match ToString v with
            | Normal id => Some ("/events/" +:+ id +:+ suffix)
            | Abrupt _ => None
            end
          else None
      | None => None
      end
  | None => None
  end.

Definition endpoint_of (request : CallToolRequest) : option string :=
  let name := call_name request in
  let args := call_arguments request in
  if String.eqb name "test_connection" then Some "/test"
  else if String.eqb name "get_event_applications" then event_endpoint args "/applications"
  else if String.eqb name "get_event_evaluations" then event_endpoint args "/evaluations"
  else if String.eqb name "get_evaluation_criteria" then event_endpoint args "/criteria"
  else if String.eqb name "get_application_questions" then event_endpoint args "/questions"
  else None.

(** What a successful invocation serialises, given the upstream's data:
    the connection report for the probe, the data as they are otherwise. *)
Definition rendered_payload (client : VercelApiClient) (request : CallToolRequest)
    (d : JValue) : JValue :=
  if String.eqb (call_name request) "test_connection"
  then connection_report client d else d.

(** The transport the endpoint finds for a request: the table is
    consulted only for a non-empty header. *)
Definition lookup_session (req : HttpRequest) (w : World) : option Transport :=
  match mcp_session_id req with
  | Some sid => if truthy_string sid then transports w !! sid else None
  | None => None
  end.

(** The world once one more transport has been constructed. *)
Definition constructed (w : World) : World :=
  {| transports := transports w; allocated := S (allocated w);
     upstream := upstream w; fetched := fetched w; clock := clock w |}.

(** How the endpoint answers once a transport has handled the request:
    with what the transport produced, or with its 500 body when the
    handling threw. *)
Definition respond (o : Completion (Transport * list HandlerResult) * World)
    : Completion McpResponse * World :=
  match o with
  | (Normal r, w') => (Normal (Handled (fst r) (snd r)), w')
  | (Abrupt e, w') =>
      (Normal (JsonRpcError 500 (-32603) "Internal error"
                 (Some (match e with
                        | JsError m => m
                        | NonError _ => "Unknown error"
                        end))), w')
  end.

(** The session id a script gives to a transport that has none: the
    first one the SDK announces, unless the handling is rejected first. *)
Fixpoint generated (script : list SdkStep) : option string :=
  match script with
  | [] => None
  | SessionInitialized sid :: _ => Some sid
  | Dispatch _ :: rest => generated rest
  | Reject _ :: _ => None
  | TransportClose :: rest => generated rest
  end.

(** The script has the transport closed before any rejection. *)
Fixpoint closes (script : list SdkStep) : bool :=
  match script with
  | [] => false
  | TransportClose :: _ => true
  | Reject _ :: _ => false
  | _ :: rest => closes rest
  end.

(** Every transport in the table sits under its own session id. *)
Definition keyed_by_sessionId (w : World) : Prop :=
  forall sid t, transports w !! sid = Some t -> sessionId t = Some sid.

Section Traces.

Variable isInitializeRequest : option JValue -> bool.
Variable client : VercelApiClient.
Variable events : list Event.
Variable w0 : World.

(** The world in which the [j]-th event is served. *)
Definition world_before (j : nat) : World :=
  snd (run isInitializeRequest client (take j events) w0).

(** The [j]-th event is a handshake that opened session [sid]: an
    initialize request, posted without a live session, whose handling
    announced [sid]. *)
Definition opened_by_handshake (j : nat) (sid : string) : Prop :=
  exists req script,
    events !! j = Some (Incoming req script) /\
    is_handshake isInitializeRequest req = true /\
    lookup_session req (world_before j) = None /\
    generated script = Some sid.

End Traces.

(** The script has the handling rejected at some point. *)
Definition rejects (script : list SdkStep) : bool :=
  existsb (fun step => match step with Reject _ => true | _ => false end) script.

(** The transport as a script that is not rejected leaves it: with the
    generated session id if it had none. *)
Definition initialised_by (t : Transport) (script : list SdkStep) : Transport :=
  match sessionId t, generated script with
  | None, Some sid => {| transport_id := transport_id t; sessionId := Some sid |}
  | _, _ => t
  end.

(** Every transport in the table was constructed by this server, and no
    transport sits under two session ids. *)
Definition transports_allocated (w : World) : Prop :=
  forall sid t, transports w !! sid = Some t -> transport_id t < allocated w.

Definition one_transport_per_session (w : World) : Prop :=
  forall sid sid' t t',
    transports w !! sid = Some t -> transports w !! sid' = Some t' ->
    transport_id t = transport_id t' -> sid = sid'.

(** ** Concrete inputs the model is run on *)

Module Sample.

Definition env_key_only : Env := {[ "MASTRA_API_KEY" := "secret" ]}.
Definition env_url_only : Env :=
  {[ "VERCEL_API_BASE_URL" := "https://ftc.example/api/mastra" ]}.
Definition env_empty_url : Env :=
  <[ "VERCEL_API_BASE_URL" := "" ]> {[ "MASTRA_API_KEY" := "secret" ]}.
Definition env_full : Env :=
  <[ "VERCEL_API_BASE_URL" := "https://ftc.example/api/mastra" ]>
    {[ "MASTRA_API_KEY" := "secret" ]}.

Definition client : VercelApiClient :=
  {| baseUrl := "https://ftc.example/api/mastra"; apiKey := "secret" |}.

(** A world with no session and an upstream that answers every request
    with [reply]. *)
Definition world_with (reply : FetchOutcome) : World :=
  {| transports := ∅; allocated := 0; upstream := fun _ _ => reply;
     fetched := []; clock := "2025-01-01T00:00:00.000Z" |}.

Definition unreachable : FetchOutcome := FetchRejected (JsError "connect ECONNREFUSED").

Definition json_reply (v : JValue) : FetchOutcome :=
  FetchResolved {| ok := true; status := 200; statusText := "OK";
                   text := Normal ""; json := Normal v |}.

(** The upstream's answer to the probe, with its fixed timestamp. *)
Definition probe_data : JValue :=
  JObj [("success", JBool true);
        ("message", JStr "Mastra API is reachable");
        ("timestamp", JStr "2024-06-01T12:00:00.000Z")].

Definition probe_body : JValue :=
  JObj [("success", JBool true); ("data", probe_data)].

Definition applications_tool : Tool :=
  {| tool_name := "get_event_applications";
     tool_description := "Get all applications for a specific event with complete data for AI analysis and ranking. Returns applicant information, responses to all questions, and metadata for evaluation.";
     inputSchema := eventId_schema "The unique ID of the event to fetch applications for" |}.

Definition initialize_body : JValue :=
  JObj [("jsonrpc", JStr "2.0"); ("id", JNum "1"); ("method", JStr "initialize");
        ("params", JObj [("protocolVersion", JStr "2024-11-05");
                         ("capabilities", JObj []);
                         ("clientInfo", JObj [("name", JStr "test-client");
                                              ("version", JStr "1.0.0")])])].

Definition tools_call_body : JValue :=
  JObj [("jsonrpc", JStr "2.0"); ("id", JNum "3"); ("method", JStr "tools/call")].

(** An initialize request that still carries the id of a session the
    server no longer has. *)
Definition stale_handshake : HttpRequest :=
  {| method := "POST"; mcp_session_id := Some "expired-session";
     body := Some initialize_body |}.

Definition handshake : HttpRequest :=
  {| method := "POST"; mcp_session_id := None; body := Some initialize_body |}.

Definition call_on (sid : string) : HttpRequest :=
  {| method := "POST"; mcp_session_id := Some sid; body := Some tools_call_body |}.

Definition call_without_session : HttpRequest :=
  {| method := "POST"; mcp_session_id := None; body := Some tools_call_body |}.

Definition applications_call : CallToolRequest :=
  {| call_name := "get_event_applications";
     call_arguments := Some [("eventId", JStr "11111111-1111-1111-1111-111111111111")] |}.

Definition probe_call : CallToolRequest :=
  {| call_name := "test_connection"; call_arguments := Some [] |}.

Definition server_error : FetchResponse :=
  {| ok := false; status := 500; statusText := "Internal Server Error";
     text := Normal "upstream exploded"; json := Abrupt (JsError "Unexpected token") |}.

Definition live_transport : Transport :=
  {| transport_id := 0; sessionId := Some "session-1" |}.

(** One live session; the upstream answers the first request with a 500
    and every later one with the probe's body. *)
Definition flaky_world : World :=
  {| transports := {[ "session-1" := live_transport ]}; allocated := 1;
     upstream := fun n _ => match n with
                            | O => FetchResolved server_error
                            | S _ => json_reply probe_body
                            end;
     fetched := []; clock := "2025-01-01T00:00:00.000Z" |}.


(** A client that calls a tool before any handshake, then shakes hands,
    then calls the tool on the session it was given. *)
Definition early_call_then_handshake : list Event :=
  [ Incoming call_without_session [Dispatch (ToolsCall probe_call)];
    Incoming handshake [SessionInitialized "session-1"];
    Incoming (call_on "session-1") [Dispatch (ToolsCall probe_call)] ].

End Sample.

(** * Properties *)

(** ** Conversion to a string *)

Lemma JValue_items_ind (P : JValue -> Prop) :
  P JNull -> (forall b, P (JBool b)) -> (forall r, P (JNum r)) -> (forall s, P (JStr s)) ->
  (forall items, Forall P items -> P (JArr items)) ->
  (forall props, P (JObj props)) ->
  forall v, P v.
Proof.
  intros Hnull Hbool Hnum Hstr Harr Hobj. fix IH 1.
  intros [| b | r | s | items | props];
    [exact Hnull | apply Hbool | apply Hnum | apply Hstr | | apply Hobj].
  apply Harr.
  exact ((fix all (l : list JValue) : Forall P l :=
            match l with
            | [] => @List.Forall_nil _ P
            | x :: rest => @List.Forall_cons _ P x rest (IH x) (all rest)
            end) items).
Qed.

Lemma ToString_JArr_cons (x : JValue) (rest : list JValue) :
  ToString (JArr (x :: rest)) =
    match (match x with JNull => Normal "" | _ => ToString x end) with
    | Abrupt e => Abrupt e
    | Normal first =>
        match rest with
        | [] => Normal first
        | _ :: _ =>
            match ToString (JArr rest) with
            | Abrupt e => Abrupt e
            | Normal others => Normal (first +:+ "," +:+ others)
            end
        end
    end.
Proof. reflexivity. Qed.

(** The only way [ToString] fails. *)
Lemma ToString_Abrupt (v : JValue) (e : Thrown) :
  ToString v = Abrupt e -> e = JsError "Cannot convert object to primitive value".
Proof.
  revert e. induction v as [| b | r | s | items IH | props] using JValue_items_ind;
    intros e; try (destruct b); try discriminate.
  - induction IH as [|x rest Hx _ IHrest]; [discriminate|].
    rewrite ToString_JArr_cons.
    assert (Hhead : forall e', match x with JNull => Normal "" | _ => ToString x end
                                 = Abrupt e' ->
                               e' = JsError "Cannot convert object to primitive value").
    { intros e'. destruct x; try discriminate; apply Hx. }
    destruct (match x with JNull => Normal "" | _ => ToString x end) as [first|e'].
    + destruct rest as [|y rest']; [discriminate|].
      destruct (ToString (JArr (y :: rest'))) as [others|e'']; [discriminate|].
      intros H; injection H as <-. apply IHrest. reflexivity.
    + intros H; injection H as <-. apply Hhead. reflexivity.
  - simpl.
    match goal with |- context [if ?b then _ else _] => destruct b end;
      [|discriminate]. intros H; injection H as <-. reflexivity.
Qed.

(** ** Start-up *)

Lemma truthy_string_false (s : string) : truthy_string s = false <-> s = "".
Proof. destruct s; simpl; split; congruence. Qed.

Lemma truthy_string_true (s : string) : truthy_string s = true <-> s <> "".
Proof. destruct s; simpl; split; congruence. Qed.

(** A client is constructed exactly when the key is a non-empty string,
    and then holds the key and the base URL or its default. *)
Lemma new_VercelApiClient_Normal (env : Env) (c : VercelApiClient) :
  new_VercelApiClient env = Normal c <->
  exists k, env !! "MASTRA_API_KEY" = Some k /\ k <> "" /\
    c = {| baseUrl := default "http://localhost:3000/api/mastra"
                        (env !! "VERCEL_API_BASE_URL");
           apiKey := k |}.
Proof.
  unfold new_VercelApiClient.
  destruct (env !! "MASTRA_API_KEY") as [k|] eqn:Hk; simpl.
  - destruct k as [|a k]; simpl.
    + split; [discriminate|]. intros (k' & Hk' & Hne & _). congruence.
    + split.
      * intros [= <-]. eexists; split; [reflexivity|]. split; [discriminate|reflexivity].
      * intros (k' & [= <-] & _ & ->). reflexivity.
  - split; [discriminate|]. intros (k' & Hk' & _). discriminate.
Qed.

(** C6, as amended. The server refuses to start when [MASTRA_API_KEY] is
    absent or empty, and when [VERCEL_API_BASE_URL] is set to the empty
    string: the constructor throws and [main] ends in [process.exit(1)].
    An absent [VERCEL_API_BASE_URL] does not make the construction fail:
    the client falls back to [http://localhost:3000/api/mastra] and, the
    key being there, the server is constructed. *)
Theorem startup_refusal (env : Env) :
  (env !! "MASTRA_API_KEY" = None \/ env !! "MASTRA_API_KEY" = Some "" \/
   env !! "VERCEL_API_BASE_URL" = Some "" ->
   (exists e, new_FtcMcpServer env = Abrupt e) /\ main env = Exited 1) /\
  (forall k, env !! "MASTRA_API_KEY" = Some k -> k <> "" ->
   env !! "VERCEL_API_BASE_URL" = None ->
   new_FtcMcpServer env =
     Normal {| apiClient := {| baseUrl := "http://localhost:3000/api/mastra";
                               apiKey := k |};
               initial_transports := ∅ |}).
Proof.
  split.
  - intros H. unfold main, new_FtcMcpServer, new_VercelApiClient.
    destruct H as [H | [H | H]].
    + rewrite H. simpl. eauto.
    + rewrite H. simpl. eauto.
    + rewrite H. simpl.
      destruct (truthy_string (default "" (env !! "MASTRA_API_KEY"))); simpl; eauto.
  - intros k Hk Hne Hu. unfold new_FtcMcpServer, new_VercelApiClient.
    rewrite Hk, Hu. simpl.
    apply truthy_string_true in Hne. rewrite Hne. simpl.
    unfold validateConfiguration, getStatus. simpl. rewrite Hne. reflexivity.
Qed.

(** An environment without [MASTRA_API_KEY] and one whose base URL is
    empty are refused; with the key alone the server is constructed on
    the default base URL. *)
Lemma startup_refusal_witness :
  main Sample.env_url_only = Exited 1 /\
  main Sample.env_empty_url = Exited 1 /\
  new_FtcMcpServer Sample.env_key_only =
    Normal {| apiClient := {| baseUrl := "http://localhost:3000/api/mastra";
                              apiKey := "secret" |};
              initial_transports := ∅ |}.
Proof.
  split; [|split].
  - apply (proj1 (startup_refusal Sample.env_url_only)). left. reflexivity.
  - apply (proj1 (startup_refusal Sample.env_empty_url)). right. right. reflexivity.
  - apply (proj2 (startup_refusal Sample.env_key_only) "secret");
      [reflexivity | discriminate | reflexivity].
Defined.

(** C6, as stated, fails: with [MASTRA_API_KEY] set, no
    [VERCEL_API_BASE_URL] and no [MCP_PORT] in the environment, the
    server is constructed and listens (on port 3001). *)
Lemma startup_without_base_url :
  Sample.env_key_only !! "VERCEL_API_BASE_URL" = None /\
  server_port Sample.env_key_only = Some 3001%Z /\
  main Sample.env_key_only = Listening
    {| apiClient := {| baseUrl := "http://localhost:3000/api/mastra"; apiKey := "secret" |};
       initial_transports := ∅ |} /\
  main Sample.env_key_only <> Exited 1.
Proof.
  split; [reflexivity|]. split; [reflexivity|]. split; [reflexivity|].
  vm_compute. discriminate.
Qed.

(** C10, as amended. A constructed client reports [hasApiKey = true];
    it reports [configured = true], with a non-empty [baseUrl], exactly
    when [VERCEL_API_BASE_URL] is not set to the empty string. A
    constructed server has passed [validateConfiguration], so its client
    reports [configured = true], [hasApiKey = true] and a non-empty
    [baseUrl]. *)
Theorem status_of_constructed_client (env : Env) :
  (forall c, new_VercelApiClient env = Normal c ->
     hasApiKey (getStatus c) = true /\
     (configured (getStatus c) = true <-> env !! "VERCEL_API_BASE_URL" <> Some "") /\
     (configured (getStatus c) = true <-> status_baseUrl (getStatus c) <> "")) /\
  (forall s, new_FtcMcpServer env = Normal s ->
     configured (getStatus (apiClient s)) = true /\
     hasApiKey (getStatus (apiClient s)) = true /\
     status_baseUrl (getStatus (apiClient s)) <> "").
Proof.
  assert (Hc : forall c, new_VercelApiClient env = Normal c ->
     hasApiKey (getStatus c) = true /\
     (configured (getStatus c) = true <-> env !! "VERCEL_API_BASE_URL" <> Some "") /\
     (configured (getStatus c) = true <-> status_baseUrl (getStatus c) <> "")).
  { intros c Hc. apply new_VercelApiClient_Normal in Hc as (k & Hk & Hne & ->).
    apply truthy_string_true in Hne. unfold getStatus; simpl. rewrite Hne.
    rewrite andb_true_r. split; [reflexivity|]. rewrite truthy_string_true.
    split; [|reflexivity].
    destruct (env !! "VERCEL_API_BASE_URL") as [u|]; simpl.
    - split; intros H; congruence.
    - split; intros _; discriminate. }
  split; [exact Hc|].
  intros s Hs. unfold new_FtcMcpServer in Hs.
  destruct (new_VercelApiClient env) as [c|e] eqn:Hnew; [|discriminate].
  unfold validateConfiguration in Hs.
  destruct (configured (getStatus c)) eqn:Hconf; simpl in Hs; [|discriminate].
  injection Hs as <-. simpl.
  destruct (Hc c eq_refl) as (Hk & _ & Hb).
  split; [exact Hconf|]. split; [exact Hk|]. apply Hb. exact Hconf.
Qed.

Lemma status_of_constructed_client_witness :
  hasApiKey (getStatus Sample.client) = true /\
  configured (getStatus Sample.client) = true /\
  status_baseUrl (getStatus Sample.client) <> "".
Proof.
  destruct (proj2 (status_of_constructed_client Sample.env_full)
              {| apiClient := Sample.client; initial_transports := ∅ |} eq_refl)
    as (H1 & H2 & H3).
  split; [exact H2|]. split; [exact H1|exact H3].
Defined.

(** C10, as stated, fails: with [VERCEL_API_BASE_URL] set to the empty
    string the client is constructed and reports [configured = false] and
    an empty [baseUrl]. *)
Lemma unconfigured_client_constructed :
  new_VercelApiClient Sample.env_empty_url = Normal {| baseUrl := ""; apiKey := "secret" |} /\
  configured (getStatus {| baseUrl := ""; apiKey := "secret" |}) = false /\
  status_baseUrl (getStatus {| baseUrl := ""; apiKey := "secret" |}) = "".
Proof. repeat split. Qed.

(** A server that has been constructed starts with an empty session
    table. *)
Lemma boot_without_sessions (env : Env) (server : FtcMcpServer)
    (up : nat -> FetchCall -> FetchOutcome) (now : string) :
  new_FtcMcpServer env = Normal server -> transports (boot server up now) = ∅.
Proof.
  unfold new_FtcMcpServer. destruct (new_VercelApiClient env) as [c|e]; [|discriminate].
  destruct (validateConfiguration c); [|discriminate].
  intros [= <-]. reflexivity.
Qed.

(** ** Discovery *)

(** C7. The discovery handler returns the same five descriptors, in the
    same order, in every world and leaves the world as it found it; two
    discovery calls on one session give the same list twice and change
    nothing. *)
Theorem discovery_idempotent (client : VercelApiClient) (t : Transport) (w : World) :
  ListTools_handler w = (Normal tools, w) /\
  map tool_name tools =
    ["test_connection"; "get_event_applications"; "get_event_evaluations";
     "get_evaluation_criteria"; "get_application_questions"] /\
  handleRequest client t [Dispatch ToolsList; Dispatch ToolsList] w =
    (Normal (t, [ToolList tools; ToolList tools]), w).
Proof. repeat split. Qed.

(** ** The dispatcher *)

Lemma not_registered (name : string) :
  ~ In name (map tool_name tools) ->
  String.eqb name "test_connection" = false /\
  String.eqb name "get_event_applications" = false /\
  String.eqb name "get_event_evaluations" = false /\
  String.eqb name "get_evaluation_criteria" = false /\
  String.eqb name "get_application_questions" = false.
Proof.
  intros H. repeat split; apply String.eqb_neq; intros ->; apply H; simpl; tauto.
Qed.

Lemma event_tools (t : Tool) :
  In t tools -> requires_eventId t = true ->
  tool_name t = "get_event_applications" \/ tool_name t = "get_event_evaluations" \/
  tool_name t = "get_evaluation_criteria" \/ tool_name t = "get_application_questions".
Proof.
  simpl. intros [<- | [<- | [<- | [<- | [<- | []]]]]] H; simpl in *;
    try discriminate; tauto.
Qed.

(** What the dispatcher does with an event tool depends on the arguments
    through [eventId] only. *)
Lemma event_tool_falsy (args : JObject) (operation : option JValue -> M JValue) (w : World) :
  truthy_opt (obj_get "eventId" args) = false ->
  event_tool (Some args) operation w = (Abrupt (JsError "eventId is required"), w).
Proof. intros H. unfold event_tool, bind, lift; simpl. rewrite H. reflexivity. Qed.


(** C4. A name that is not in the registry is answered with an
    error-tagged result that carries ["Unknown tool: <name>"] and the name
    itself; the world is untouched, so no upstream request is issued. *)
Theorem unknown_tool_rejected (client : VercelApiClient) (request : CallToolRequest)
    (w : World) :
  ~ In (call_name request) (map tool_name tools) ->
  CallTool_handler client request w =
    (Normal (failure_result ("Unknown tool: " +:+ call_name request)
               (call_name request) (clock w)), w) /\
  fetched (snd (CallTool_handler client request w)) = fetched w.
Proof.
  intros H. apply not_registered in H as (H1 & H2 & H3 & H4 & H5).
  assert (E : CallTool_handler client request w =
    (Normal (failure_result ("Unknown tool: " +:+ call_name request)
               (call_name request) (clock w)), w)).
  { unfold CallTool_handler, try_catch, dispatch.
    rewrite H1, H2, H3, H4, H5. reflexivity. }
  rewrite E. split; reflexivity.
Qed.



(** ** The upstream call *)

Lemma get_prop_field (data : JValue) (k : string) :
  data <> JNull -> get_prop data k = Normal (field data k).
Proof. destruct data; simpl; congruence. Qed.

(** [makeRequest] issues exactly one request, whatever comes of it. *)
Lemma makeRequest_issues (client : VercelApiClient) (endpoint : string) (w : World) :
  snd (makeRequest client endpoint w) = issued (request_for client endpoint) w.
Proof.
  unfold makeRequest, bind, fetch, lift, throw, ret, issued, request_for.
  repeat (case_match; simpl in *; simplify_eq; try reflexivity).
Qed.

Lemma makeRequest_fails (client : VercelApiClient) (endpoint : string) (w : World)
    (msg : string) :
  UpstreamFailure (upstream w (length (fetched w)) (request_for client endpoint)) msg ->
  exists e, makeRequest client endpoint w =
              (Abrupt e, issued (request_for client endpoint) w) /\
            error_message e = msg.
Proof.
  intros H. unfold makeRequest, bind, fetch. fold (request_for client endpoint).
  fold (issued (request_for client endpoint) w).
  inversion H as [e He | r errorText Hok Htext He | r e Hok Htext He
                  | r e Hok Hjson He | r Hok Hjson He
                  | r data errorText detailsText Hok Hjson Hnull Hs Herr Hdet He
                  | r data e Hok Hjson Hnull Hs Herr He
                  | r data errorText e Hok Hjson Hnull Hs Herr Hdet He
                  | r data Hok Hjson Hs Hd He];
    subst msg; simpl.
  - eexists; split; reflexivity.
  - rewrite Hok; simpl. unfold lift. rewrite Htext; simpl. eexists; split; reflexivity.
  - rewrite Hok; simpl. unfold lift. rewrite Htext; simpl. eexists; split; reflexivity.
  - rewrite Hok; simpl. unfold lift. rewrite Hjson; simpl. eexists; split; reflexivity.
  - rewrite Hok; simpl. unfold lift. rewrite Hjson; simpl. eexists; split; reflexivity.
  - rewrite Hok; simpl. unfold lift. rewrite Hjson; simpl.
    rewrite !(get_prop_field data) by assumption. rewrite Hs; simpl.
    rewrite Herr; simpl. rewrite Hdet; simpl. eexists; split; reflexivity.
  - rewrite Hok; simpl. unfold lift. rewrite Hjson; simpl.
    rewrite !(get_prop_field data) by assumption. rewrite Hs; simpl.
    rewrite Herr; simpl. eexists; split; reflexivity.
  - rewrite Hok; simpl. unfold lift. rewrite Hjson; simpl.
    rewrite !(get_prop_field data) by assumption. rewrite Hs; simpl.
    rewrite Herr; simpl. rewrite Hdet; simpl. eexists; split; reflexivity.
  - assert (Hnn : data <> JNull) by (intros ->; discriminate).
    rewrite Hok; simpl. unfold lift. rewrite Hjson; simpl.
    rewrite !(get_prop_field data) by assumption. rewrite Hs; simpl.
    destruct (field data "data") as [d|]; simpl in *.
    + rewrite Hd. eexists; split; reflexivity.
    + eexists; split; reflexivity.
Qed.

Lemma makeRequest_succeeds (client : VercelApiClient) (endpoint : string) (w : World)
    (r : FetchResponse) (data d : JValue) :
  upstream w (length (fetched w)) (request_for client endpoint) = FetchResolved r ->
  ok r = true -> json r = Normal data ->
  truthy_opt (field data "success") = true ->
  field data "data" = Some d -> truthy d = true ->
  makeRequest client endpoint w = (Normal d, issued (request_for client endpoint) w).
Proof.
  intros Hup Hok Hjson Hs Hd Ht.
  assert (Hnn : data <> JNull) by (intros ->; discriminate).
  unfold makeRequest, bind, fetch. fold (request_for client endpoint).
  fold (issued (request_for client endpoint) w).
  rewrite Hup, Hok; simpl. unfold lift. rewrite Hjson; simpl.
  rewrite !(get_prop_field data) by assumption. rewrite Hs; simpl.
  rewrite Hd, Ht. reflexivity.
Qed.

(** ** From the upstream call to the invocation result *)

Lemma event_endpoint_Some (args : option JObject) (suffix endpoint : string) :
  event_endpoint args suffix = Some endpoint ->
  exists o v id, args = Some o /\ obj_get "eventId" o = Some v /\ truthy v = true /\
                 ToString v = Normal id /\
                 endpoint = "/events/" +:+ id +:+ suffix.
Proof.
  unfold event_endpoint. destruct args as [o|]; [|discriminate].
  destruct (obj_get "eventId" o) as [v|] eqn:Hget; [|discriminate].
  destruct (truthy v) eqn:Hv; [|discriminate].
  destruct (ToString v) as [id|e] eqn:Hid; [|discriminate].
  intros [= <-]. exists o, v, id. repeat split; assumption || reflexivity.
Qed.

Lemma event_tool_endpoint (client : VercelApiClient) (args : option JObject)
    (suffix endpoint : string) (w : World) :
  event_endpoint args suffix = Some endpoint ->
  event_tool args (fun eventId => event_request client eventId suffix) w =
    match makeRequest client endpoint w with
    | (Normal d, w') => (Normal (success_result d), w')
    | (Abrupt e, w') => (Abrupt e, w')
    end.
Proof.
  intros H. apply event_endpoint_Some in H as (o & v & id & -> & Hget & Hv & Hid & ->).
  unfold event_tool, event_request, bind, lift; simpl.
  rewrite Hget; simpl. rewrite Hv; simpl. rewrite Hid; simpl.
  destruct (makeRequest client ("/events/" +:+ id +:+ suffix) w) as [[d|e] w'];
    reflexivity.
Qed.

Lemma event_tool_no_endpoint (client : VercelApiClient) (args : option JObject)
    (suffix : string) (w : World) :
  event_endpoint args suffix = None ->
  exists e, event_tool args (fun eventId => event_request client eventId suffix) w =
            (Abrupt e, w).
Proof.
  unfold event_endpoint, event_tool, bind, lift, destructure_eventId, throw.
  destruct args as [o|]; simpl; [|eauto].
  destruct (obj_get "eventId" o) as [v|]; simpl; [|eauto].
  destruct (truthy v) eqn:Hv; simpl; [|eauto].
  unfold bind, lift; simpl.
  destruct (ToString v) as [id|e]; [discriminate|eauto].
Qed.

Lemma event_tool_not_rendered (client : VercelApiClient) (o : JObject) (v : JValue)
    (e : Thrown) (suffix : string) (w : World) :
  obj_get "eventId" o = Some v -> truthy v = true -> ToString v = Abrupt e ->
  event_tool (Some o) (fun eventId => event_request client eventId suffix) w =
    (Abrupt e, w).
Proof.
  intros Hget Hv Hid.
  unfold event_tool, event_request, bind, lift, destructure_eventId; simpl.
  rewrite Hget; simpl. rewrite Hv; simpl. unfold bind, lift. rewrite Hid. reflexivity.
Qed.

(** An invocation that reaches the upstream returns what [makeRequest]
    returns, wrapped; one that does not reach it throws inside the [try]
    and leaves the world alone. *)
Lemma dispatch_endpoint (client : VercelApiClient) (request : CallToolRequest)
    (endpoint : string) (w : World) :
  endpoint_of request = Some endpoint ->
  dispatch client (call_name request) (call_arguments request) w =
    match makeRequest client endpoint w with
    | (Normal d, w') => (Normal (success_result (rendered_payload client request d)), w')
    | (Abrupt e, w') => (Abrupt e, w')
    end.
Proof.
  unfold endpoint_of, dispatch, rendered_payload.
  destruct (String.eqb (call_name request) "test_connection") eqn:E0.
  { intros [= <-]. unfold testConnection, bind, ret.
    destruct (makeRequest client "/test" w) as [[d|e] w']; reflexivity. }
  destruct (String.eqb (call_name request) "get_event_applications").
  { apply event_tool_endpoint. }
  destruct (String.eqb (call_name request) "get_event_evaluations").
  { apply event_tool_endpoint. }
  destruct (String.eqb (call_name request) "get_evaluation_criteria").
  { apply event_tool_endpoint. }
  destruct (String.eqb (call_name request) "get_application_questions").
  { apply event_tool_endpoint. }
  discriminate.
Qed.

Lemma dispatch_no_endpoint (client : VercelApiClient) (request : CallToolRequest)
    (w : World) :
  endpoint_of request = None ->
  exists e, dispatch client (call_name request) (call_arguments request) w = (Abrupt e, w).
Proof.
  unfold endpoint_of, dispatch.
  destruct (String.eqb (call_name request) "test_connection"); [discriminate|].
  destruct (String.eqb (call_name request) "get_event_applications").
  { apply event_tool_no_endpoint. }
  destruct (String.eqb (call_name request) "get_event_evaluations").
  { apply event_tool_no_endpoint. }
  destruct (String.eqb (call_name request) "get_evaluation_criteria").
  { apply event_tool_no_endpoint. }
  destruct (String.eqb (call_name request) "get_application_questions").
  { apply event_tool_no_endpoint. }
  intros _. unfold throw. eauto.
Qed.

(** The handler always returns a result, and issues at most one upstream
    request on the way. *)
Lemma CallTool_handler_returns (client : VercelApiClient) (request : CallToolRequest)
    (w : World) :
  exists r w', CallTool_handler client request w = (Normal r, w') /\
    (w' = w \/ exists endpoint, w' = issued (request_for client endpoint) w).
Proof.
  unfold CallTool_handler, try_catch.
  destruct (endpoint_of request) as [endpoint|] eqn:He.
  - rewrite (dispatch_endpoint client request endpoint w He).
    pose proof (makeRequest_issues client endpoint w) as Hw.
    destruct (makeRequest client endpoint w) as [[d|e] w']; simpl in Hw; subst w'.
    + eexists _, _. split; [reflexivity|]. right. eauto.
    + eexists _, _. split; [reflexivity|]. right. eauto.
  - destruct (dispatch_no_endpoint client request w He) as (e & ->).
    eexists _, _. split; [reflexivity|]. left. reflexivity.
Qed.

Lemma CallTool_handler_sessions (client : VercelApiClient) (request : CallToolRequest)
    (w : World) :
  transports (snd (CallTool_handler client request w)) = transports w /\
  allocated (snd (CallTool_handler client request w)) = allocated w.
Proof.
  destruct (CallTool_handler_returns client request w) as (r & w' & -> & [-> | (ep & ->)]);
    split; reflexivity.
Qed.

Lemma unknown_tool_rejected_witness :
  CallTool_handler Sample.client
      {| call_name := "delete_event"; call_arguments := Some [("eventId", JStr "e1")] |}
      (Sample.world_with Sample.unreachable) =
    (Normal (failure_result "Unknown tool: delete_event" "delete_event"
               "2025-01-01T00:00:00.000Z"),
     Sample.world_with Sample.unreachable).
Proof.
  assert (Hout : ~ In "delete_event" (map tool_name tools))
    by (simpl; intros [H | [H | [H | [H | [H | []]]]]]; discriminate H).
  exact (proj1 (unknown_tool_rejected Sample.client
                  {| call_name := "delete_event";
                     call_arguments := Some [("eventId", JStr "e1")] |}
                  (Sample.world_with Sample.unreachable) Hout)).
Defined.


(** C9. With [arguments] absent altogether, a tool that requires
    [eventId] still answers with an error-tagged result: the [TypeError]
    of the destructuring is thrown inside the [try] and caught, and
    nothing is sent upstream. More generally the handler returns a result
    for every request, whatever its arguments. *)
Theorem undefined_arguments_caught (client : VercelApiClient) (t : Tool) (w : World) :
  In t tools -> requires_eventId t = true ->
  (exists r,
     CallTool_handler client {| call_name := tool_name t; call_arguments := None |} w =
       (Normal r, w) /\
     isError r = Some true /\
     r = failure_result
           "Cannot destructure property 'eventId' of 'args' as it is undefined."
           (tool_name t) (clock w)) /\
  (forall request : CallToolRequest,
     exists r w', CallTool_handler client request w = (Normal r, w')).
Proof.
  intros Ht Hreq. split.
  - eexists. split; [|split; [|reflexivity]]; [|reflexivity].
    unfold CallTool_handler, try_catch, dispatch; simpl.
    destruct (event_tools t Ht Hreq) as [-> | [-> | [-> | ->]]]; reflexivity.
  - intros request.
    destruct (CallTool_handler_returns client request w) as (r & w' & H & _). eauto.
Qed.

Lemma undefined_arguments_caught_witness :
  exists r,
    CallTool_handler Sample.client
      {| call_name := "get_event_applications"; call_arguments := None |}
      (Sample.world_with Sample.unreachable) =
      (Normal r, Sample.world_with Sample.unreachable) /\
    isError r = Some true.
Proof.
  destruct (proj1 (undefined_arguments_caught Sample.client Sample.applications_tool
                     (Sample.world_with Sample.unreachable)
                     (or_intror (or_introl eq_refl)) eq_refl))
    as (r & H & He & _).
  exists r. split; [exact H | exact He].
Defined.

(** ** The connection probe *)

Lemma obj_get_set_eq (k : string) (v : JValue) (o : JObject) :
  obj_get k (obj_set k v o) = Some v.
Proof.
  induction o as [|[k' v'] o IH]; simpl.
  - rewrite String.eqb_refl. reflexivity.
  - destruct (String.eqb k k') eqn:E; simpl; rewrite E; [reflexivity | exact IH].
Qed.

Lemma obj_get_set_ne (k k' : string) (v : JValue) (o : JObject) :
  k <> k' -> obj_get k (obj_set k' v o) = obj_get k o.
Proof.
  intros Hne. induction o as [|[k0 v0] o IH]; simpl.
  - apply String.eqb_neq in Hne. rewrite Hne. reflexivity.
  - destruct (String.eqb k' k0) eqn:E; simpl.
    + apply String.eqb_eq in E. subst k0.
      apply String.eqb_neq in Hne. rewrite Hne. reflexivity.
    + rewrite IH. reflexivity.
Qed.

(** C8. When the probe succeeds, the [test_connection] result is the
    untagged text block the common handler builds, and what it serialises
    is the upstream's payload with three properties set on it: the report
    keeps every property of the payload that is not named [mcpServer],
    [version] or [apiClient] (its [timestamp] among them), holds the
    client's three status flags under [apiClient], and has no property
    besides these. *)
Theorem connection_probe_report (client : VercelApiClient) (args : option JObject)
    (w : World) (r : FetchResponse) (data d : JValue) :
  upstream w (length (fetched w)) (request_for client "/test") = FetchResolved r ->
  ok r = true -> json r = Normal data ->
  truthy_opt (field data "success") = true ->
  field data "data" = Some d -> truthy d = true ->
  let flags :=
    JObj [("configured",
           JBool (truthy_string (baseUrl client) && truthy_string (apiKey client)));
          ("baseUrl", JStr (baseUrl client));
          ("hasApiKey", JBool (truthy_string (apiKey client)))] in
  let report :=
    obj_set "apiClient" flags
      (obj_set "version" (JStr "1.0.0")
         (obj_set "mcpServer" (JStr "ftc-platform-mcp") (spread d))) in
  CallTool_handler client {| call_name := "test_connection"; call_arguments := args |} w =
    (Normal {| content := [ {| content_type := "text";
                               content_text := JSON_stringify (JObj report) 2 |} ];
               isError := None |},
     issued (request_for client "/test") w) /\
  (forall k v, obj_get k (spread d) = Some v ->
     k <> "mcpServer" -> k <> "version" -> k <> "apiClient" ->
     obj_get k report = Some v) /\
  (forall o ts, d = JObj o -> obj_get "timestamp" o = Some ts ->
     obj_get "timestamp" report = Some ts) /\
  obj_get "apiClient" report = Some flags /\
  (forall k v, obj_get k report = Some v ->
     k = "mcpServer" \/ k = "version" \/ k = "apiClient" \/
     obj_get k (spread d) = Some v).
Proof.
  intros Hup Hok Hjson Hs Hd Ht flags report.
  assert (Hkeep : forall k v, obj_get k (spread d) = Some v ->
     k <> "mcpServer" -> k <> "version" -> k <> "apiClient" ->
     obj_get k report = Some v).
  { intros k v Hk H1 H2 H3. unfold report.
    rewrite !obj_get_set_ne by assumption. exact Hk. }
  split; [|split; [exact Hkeep|split; [|split]]].
  - unfold CallTool_handler, try_catch.
    rewrite (dispatch_endpoint client
               {| call_name := "test_connection"; call_arguments := args |}
               "/test" w eq_refl).
    rewrite (makeRequest_succeeds client "/test" w r data d Hup Hok Hjson Hs Hd Ht).
    reflexivity.
  - intros o ts -> Hts. apply Hkeep; try discriminate. exact Hts.
  - unfold report. apply obj_get_set_eq.
  - intros k v Hk. unfold report in Hk.
    destruct (String.eqb_spec k "apiClient") as [->|H3]; [auto|].
    destruct (String.eqb_spec k "version") as [->|H2]; [auto|].
    destruct (String.eqb_spec k "mcpServer") as [->|H1]; [auto|].
    rewrite !obj_get_set_ne in Hk by assumption. auto.
Qed.

Lemma connection_probe_report_witness :
  CallTool_handler Sample.client
      {| call_name := "test_connection"; call_arguments := Some [] |}
      (Sample.world_with (Sample.json_reply Sample.probe_body)) =
    (Normal {| content :=
                 [ {| content_type := "text";
                      content_text :=
                        JSON_stringify
                          (JObj [("success", JBool true);
                                 ("message", JStr "Mastra API is reachable");
                                 ("timestamp", JStr "2024-06-01T12:00:00.000Z");
                                 ("mcpServer", JStr "ftc-platform-mcp");
                                 ("version", JStr "1.0.0");
                                 ("apiClient",
                                  JObj [("configured", JBool true);
                                        ("baseUrl", JStr "https://ftc.example/api/mastra");
                                        ("hasApiKey", JBool true)])]) 2 |} ];
               isError := None |},
     issued (request_for Sample.client "/test")
       (Sample.world_with (Sample.json_reply Sample.probe_body))).
Proof.
  exact (proj1 (connection_probe_report Sample.client (Some [])
                  (Sample.world_with (Sample.json_reply Sample.probe_body))
                  _ Sample.probe_body Sample.probe_data
                  eq_refl eq_refl eq_refl eq_refl eq_refl eq_refl)).
Defined.

(** ** The session table *)

Section RouterFacts.

Variable isInitializeRequest : option JValue -> bool.
Variable client : VercelApiClient.

(** A transport that has its session id goes through a request without
    touching the table, and comes back as it was. *)
Lemma handleRequest_initialised (t : Transport) (script : list SdkStep) (w : World) :
  is_Some (sessionId t) ->
  transports (snd (handleRequest client t script w)) = transports w /\
  allocated (snd (handleRequest client t script w)) = allocated w /\
  (forall r, fst (handleRequest client t script w) = Normal r -> fst r = t).
Proof.
  intros [s Hs]. revert w. induction script as [|step rest IH]; intros w.
  - simpl. repeat split. intros r [= <-]. reflexivity.
  - destruct step as [sid | [|request] | e |]; simpl.
    5: apply IH.
    + rewrite Hs. apply IH.
    + unfold bind, ListTools_handler, ret; simpl.
      destruct (IH w) as (H1 & H2 & H3).
      destruct (handleRequest client t rest w) as [[r|e] w']; simpl in *;
        repeat split; auto; try discriminate.
      intros r' [= <-]. simpl. apply H3. reflexivity.
    + unfold bind.
      destruct (CallTool_handler_returns client request w) as (res & w1 & Hh & _).
      pose proof (CallTool_handler_sessions client request w) as (Ht & Ha).
      rewrite Hh in *. simpl in Ht, Ha.
      destruct (IH w1) as (H1 & H2 & H3).
      destruct (handleRequest client t rest w1) as [[r|e] w']; simpl in *;
        repeat split; try congruence.
      intros r' [= <-]. simpl. apply H3. reflexivity.
    + unfold throw; simpl. repeat split. discriminate.
Qed.

(** A transport without a session id registers itself under the id the
    script generates, and nothing else changes in the table. *)
Lemma handleRequest_fresh (t : Transport) (script : list SdkStep) (w : World) :
  sessionId t = None ->
  transports (snd (handleRequest client t script w)) =
    match generated script with
    | Some sid => <[sid := {| transport_id := transport_id t; sessionId := Some sid |}]>
                    (transports w)
    | None => transports w
    end.
Proof.
  intros Hs. revert w. induction script as [|step rest IH]; intros w.
  - reflexivity.
  - destruct step as [sid | [|request] | e |]; simpl.
    5: apply IH.
    + rewrite Hs. unfold bind, Map_set; simpl.
      destruct (handleRequest_initialised
                  {| transport_id := transport_id t; sessionId := Some sid |} rest
                  (with_transports (insert sid
                     {| transport_id := transport_id t; sessionId := Some sid |}) w))
        as (H1 & _); [eexists; reflexivity|].
      rewrite H1. reflexivity.
    + unfold bind, ListTools_handler, ret; simpl.
      specialize (IH w).
      destruct (handleRequest client t rest w) as [[r|e] w']; simpl in *; exact IH.
    + unfold bind.
      destruct (CallTool_handler_returns client request w) as (res & w1 & Hh & _).
      pose proof (CallTool_handler_sessions client request w) as (Ht & _).
      rewrite Hh in *. simpl in Ht.
      specialize (IH w1). rewrite Ht in IH.
      destruct (handleRequest client t rest w1) as [[r|e] w']; simpl in *; exact IH.
    + reflexivity.
Qed.

Lemma handleRequest_allocated (t : Transport) (script : list SdkStep) (w : World) :
  allocated (snd (handleRequest client t script w)) = allocated w.
Proof.
  revert t w. induction script as [|step rest IH]; intros t w; [reflexivity|].
  destruct step as [sid | [|request] | e |]; simpl.
  5: apply IH.
  - destruct (sessionId t); [apply IH|]. unfold bind, Map_set; simpl. rewrite IH. reflexivity.
  - unfold bind, ListTools_handler, ret; simpl. specialize (IH t w).
    destruct (handleRequest client t rest w) as [[r|e] w']; simpl in *; exact IH.
  - unfold bind.
    destruct (CallTool_handler_returns client request w) as (res & w1 & Hh & _).
    pose proof (CallTool_handler_sessions client request w) as (_ & Ha).
    rewrite Hh in *. simpl in Ha. specialize (IH t w1). rewrite Ha in IH.
    destruct (handleRequest client t rest w1) as [[r|e] w']; simpl in *; exact IH.
  - reflexivity.
Qed.

Lemma onclose_twice (t : Transport) (w : World) :
  snd (onclose t (snd (onclose t w))) = snd (onclose t w).
Proof.
  unfold onclose. destruct (sessionId t) as [sid|]; [|reflexivity].
  destruct (truthy_string sid); [|reflexivity].
  unfold Map_delete, with_transports; simpl. rewrite delete_delete_eq. reflexivity.
Qed.

Lemma onclose_allocated (t : Transport) (w : World) :
  allocated (snd (onclose t w)) = allocated w.
Proof.
  unfold onclose. destruct (sessionId t) as [sid|]; [|reflexivity].
  destruct (truthy_string sid); reflexivity.
Qed.

Lemma onclose_Normal (t : Transport) (w : World) : fst (onclose t w) = Normal tt.
Proof.
  unfold onclose. destruct (sessionId t) as [sid|]; [|reflexivity].
  destruct (truthy_string sid); reflexivity.
Qed.

(** A DELETE leaves the table as it is or, when the SDK closes the
    transport, as [onclose] leaves it; it constructs nothing and invokes
    no handler. *)
Lemma handleDeleteRequest_table (t : Transport) (script : list SdkStep) (w : World) :
  snd (handleDeleteRequest t script w) =
    (if closes script then snd (onclose t w) else w) /\
  (forall r, fst (handleDeleteRequest t script w) = Normal r -> r = (t, [])).
Proof.
  revert w. induction script as [|step rest IH]; intros w.
  - simpl. split; [reflexivity|]. intros r [= <-]. reflexivity.
  - destruct step as [sid | call | e |]; simpl.
    + destruct (IH w) as (H1 & H2). split; [|exact H2].
      rewrite H1. destruct rest as [|[]]; reflexivity.
    + destruct (IH w) as (H1 & H2). split; [|exact H2].
      rewrite H1. destruct rest as [|[]]; reflexivity.
    + split; [reflexivity|]. discriminate.
    + unfold bind.
      pose proof (onclose_Normal t w) as Hn.
      destruct (onclose t w) as [c w1] eqn:Hc. simpl in Hn. subst c.
      destruct (IH w1) as (H1 & H2). split; [|exact H2].
      rewrite H1. destruct (closes rest); [|reflexivity].
      replace w1 with (snd (onclose t w)) by (rewrite Hc; reflexivity).
      apply onclose_twice.
Qed.

(** What a transport that has its session id does with a request: the
    table changes only when a DELETE has it closed. *)
Lemma transport_handleRequest_live (t : Transport) (req : HttpRequest)
    (script : list SdkStep) (w : World) :
  is_Some (sessionId t) ->
  transports (snd (transport_handleRequest client t req script w)) =
    (if String.eqb (method req) "DELETE" && closes script
     then transports (snd (onclose t w)) else transports w) /\
  allocated (snd (transport_handleRequest client t req script w)) = allocated w /\
  (forall r, fst (transport_handleRequest client t req script w) = Normal r -> fst r = t).
Proof.
  intros Hs. unfold transport_handleRequest.
  destruct (String.eqb (method req) "DELETE"); simpl.
  - destruct (handleDeleteRequest_table t script w) as (H1 & H2).
    rewrite H1. split; [|split].
    + destruct (closes script); reflexivity.
    + destruct (closes script); [apply onclose_allocated | reflexivity].
    + intros r Hr. rewrite (H2 r Hr). reflexivity.
  - apply handleRequest_initialised. exact Hs.
Qed.

Lemma transport_handleRequest_allocated (t : Transport) (req : HttpRequest)
    (script : list SdkStep) (w : World) :
  allocated (snd (transport_handleRequest client t req script w)) = allocated w.
Proof.
  unfold transport_handleRequest. destruct (String.eqb (method req) "DELETE").
  - destruct (handleDeleteRequest_table t script w) as (-> & _).
    destruct (closes script); [apply onclose_allocated | reflexivity].
  - apply handleRequest_allocated.
Qed.

(** The four ways through the endpoint. *)
Lemma mcp_endpoint_found (req : HttpRequest) (script : list SdkStep) (w : World)
    (found : Transport) :
  lookup_session req w = Some found ->
  mcp_endpoint isInitializeRequest client req script w =
    respond (transport_handleRequest client found req script w).
Proof.
  unfold lookup_session, mcp_endpoint, try_catch, bind, Map_get, ret, respond.
  destruct (mcp_session_id req) as [sid|]; [|discriminate].
  destruct (truthy_string sid); [|discriminate].
  intros ->.
  destruct (transport_handleRequest client found req script w) as [[r|e] w'];
    reflexivity.
Qed.

Lemma mcp_endpoint_handshake (req : HttpRequest) (script : list SdkStep) (w : World) :
  lookup_session req w = None ->
  is_handshake isInitializeRequest req = true ->
  mcp_endpoint isInitializeRequest client req script w =
    respond (handleRequest client
               {| transport_id := allocated w; sessionId := None |} script
               (constructed w)).
Proof.
  unfold lookup_session, is_handshake, mcp_endpoint, try_catch, bind, Map_get, ret,
    respond, new_transport, constructed, transport_handleRequest.
  intros Hl Hh.
  assert (Hm : String.eqb (method req) "DELETE" = false).
  { apply andb_true_iff in Hh as (Hp & _). apply String.eqb_eq in Hp.
    rewrite Hp. reflexivity. }
  rewrite Hm.
  destruct (mcp_session_id req) as [sid|]; [destruct (truthy_string sid)|];
    try rewrite Hl; rewrite Hh;
    destruct (handleRequest client _ script _) as [[r|e] w']; reflexivity.
Qed.

Lemma mcp_endpoint_invalid (req : HttpRequest) (script : list SdkStep) (w : World) :
  lookup_session req w = None ->
  is_handshake isInitializeRequest req = false ->
  truthy_opt_string (mcp_session_id req) = true ->
  mcp_endpoint isInitializeRequest client req script w = (Normal SessionInvalid, w).
Proof.
  unfold lookup_session, is_handshake, mcp_endpoint, try_catch, bind, Map_get, ret.
  intros Hl Hh Ht.
  destruct (mcp_session_id req) as [sid|]; [|discriminate]. simpl in Ht.
  rewrite Ht in *. rewrite Hl, Hh. simpl. rewrite Ht. reflexivity.
Qed.

Lemma mcp_endpoint_missing (req : HttpRequest) (script : list SdkStep) (w : World) :
  is_handshake isInitializeRequest req = false ->
  truthy_opt_string (mcp_session_id req) = false ->
  mcp_endpoint isInitializeRequest client req script w = (Normal SessionMissing, w).
Proof.
  unfold is_handshake, mcp_endpoint, try_catch, bind, Map_get, ret.
  intros Hh Ht.
  destruct (mcp_session_id req) as [sid|]; simpl in Ht.
  - rewrite Ht, Hh. simpl. rewrite Ht. reflexivity.
  - rewrite Hh. reflexivity.
Qed.

End RouterFacts.

(** ** Requests with an unknown session id *)

Lemma lookup_session_header (req : HttpRequest) (sid : string) (w : World) :
  mcp_session_id req = Some sid -> sid <> "" ->
  lookup_session req w = transports w !! sid /\
  truthy_opt_string (mcp_session_id req) = true.
Proof.
  intros H Hne. apply truthy_string_true in Hne.
  unfold lookup_session. rewrite H. simpl. rewrite Hne. split; reflexivity.
Qed.

(** C1, as amended. A request that carries a non-empty session id the
    table does not hold, and that is not a posted initialize request, is
    answered with HTTP 400, code -32000 and "Invalid session ID or session
    expired"; the world is left as it was, so no session is created. This
    is the answer, in particular, once the transport of that session has
    closed. (A posted initialize request with such an id is served as a
    new handshake.) *)
Theorem unknown_session_rejected (isInitializeRequest : option JValue -> bool)
    (client : VercelApiClient) (req : HttpRequest) (script : list SdkStep)
    (sid : string) :
  mcp_session_id req = Some sid -> sid <> "" ->
  is_handshake isInitializeRequest req = false ->
  (forall w, transports w !! sid = None ->
     mcp_endpoint isInitializeRequest client req script w =
       (Normal (JsonRpcError 400 (-32000) "Invalid session ID or session expired" None),
        w)) /\
  (forall w t, sessionId t = Some sid ->
     run isInitializeRequest client [TransportClosed t; Incoming req script] w =
       ([None;
         Some (JsonRpcError 400 (-32000) "Invalid session ID or session expired" None)],
        with_transports (delete sid) w)).
Proof.
  intros Hh Hne Hn.
  assert (Hfirst : forall w, transports w !! sid = None ->
     mcp_endpoint isInitializeRequest client req script w = (Normal SessionInvalid, w)).
  { intros w Hw. destruct (lookup_session_header req sid w Hh Hne) as (Hl & Ht).
    apply mcp_endpoint_invalid; [congruence | assumption | assumption]. }
  split; [exact Hfirst|].
  intros w t Ht. simpl. unfold onclose. rewrite Ht.
  apply truthy_string_true in Hne. rewrite Hne. simpl.
  rewrite Hfirst; [reflexivity|]. simpl. apply lookup_delete_eq.
Qed.

Lemma unknown_session_rejected_witness :
  mcp_endpoint has_initialize_method Sample.client (Sample.call_on "expired-session")
      [Dispatch (ToolsCall Sample.probe_call)] Sample.flaky_world =
    (Normal (JsonRpcError 400 (-32000) "Invalid session ID or session expired" None),
     Sample.flaky_world).
Proof.
  assert (Hne : "expired-session" <> "") by discriminate.
  exact (proj1 (unknown_session_rejected has_initialize_method Sample.client
                  (Sample.call_on "expired-session")
                  [Dispatch (ToolsCall Sample.probe_call)] "expired-session"
                  eq_refl Hne eq_refl)
               Sample.flaky_world eq_refl).
Defined.

(** C1, as stated, fails: a posted initialize request whose session id is
    not in the table is not answered with the session error; a transport
    is constructed for it and the session the SDK then announces is
    registered. (An empty header, which the table does not hold either,
    counts as no header at all.) *)
Lemma stale_handshake_opens_session :
  transports Sample.flaky_world !! "" = None /\
  fst (mcp_endpoint has_initialize_method Sample.client (Sample.call_on "")
         [Dispatch (ToolsCall Sample.probe_call)] Sample.flaky_world) =
    Normal SessionMissing /\
  transports Sample.flaky_world !! "expired-session" = None /\
  fst (mcp_endpoint has_initialize_method Sample.client Sample.stale_handshake
         [SessionInitialized "session-2"] Sample.flaky_world) =
    Normal (Handled {| transport_id := 1; sessionId := Some "session-2" |} []) /\
  transports (snd (mcp_endpoint has_initialize_method Sample.client Sample.stale_handshake
                     [SessionInitialized "session-2"] Sample.flaky_world))
    !! "session-2" = Some {| transport_id := 1; sessionId := Some "session-2" |}.
Proof. repeat split; vm_compute; reflexivity. Qed.

(** ** Upstream failures *)

(** C5. Whatever the upstream does, the handler returns a result and the
    session table is as before. When the upstream call of an invocation
    fails (the request fails, the status is not a success status, the
    body is malformed, the payload signals failure or has no data) the
    result is the error-tagged text block that serialises
    [{success: false, error, tool, timestamp, details}] with the failure's
    message, the tool name and the time. The session stays usable: a
    further invocation posted on the same session id is handed to the same
    transport and answered by the handler. *)
Theorem upstream_failure_contained (client : VercelApiClient)
    (request : CallToolRequest) (w : World) :
  (exists r w', CallTool_handler client request w = (Normal r, w') /\
                transports w' = transports w) /\
  (forall endpoint msg,
     endpoint_of request = Some endpoint ->
     UpstreamFailure (upstream w (length (fetched w)) (request_for client endpoint)) msg ->
     CallTool_handler client request w =
       (Normal {| content :=
                    [ {| content_type := "text";
                         content_text :=
                           JSON_stringify
                             (JObj [("success", JBool false);
                                    ("error", JStr msg);
                                    ("tool", JStr (call_name request));
                                    ("timestamp", JStr (clock w));
                                    ("details", JStr ("Failed to execute MCP tool: "
                                                      +:+ call_name request))]) 2 |} ];
                  isError := Some true |},
        issued (request_for client endpoint) w)) /\
  (forall isInitializeRequest sid t req req' request',
     transports w !! sid = Some t -> sid <> "" ->
     mcp_session_id req = Some sid -> method req = "POST" ->
     mcp_session_id req' = Some sid -> method req' = "POST" ->
     exists r w1 r' w2,
       CallTool_handler client request w = (Normal r, w1) /\
       CallTool_handler client request' w1 = (Normal r', w2) /\
       run isInitializeRequest client
           [Incoming req [Dispatch (ToolsCall request)];
            Incoming req' [Dispatch (ToolsCall request')]] w =
         ([Some (Handled t [ToolResult r]); Some (Handled t [ToolResult r'])], w2)).
Proof.
  split; [|split].
  - destruct (CallTool_handler_returns client request w) as (r & w' & H & _).
    exists r, w'. split; [exact H|].
    pose proof (CallTool_handler_sessions client request w) as (Ht & _).
    rewrite H in Ht. exact Ht.
  - intros endpoint msg He Hf.
    destruct (makeRequest_fails client endpoint w msg Hf) as (e & Hm & <-).
    unfold CallTool_handler, try_catch.
    rewrite (dispatch_endpoint client request endpoint w He), Hm. reflexivity.
  - intros isInit sid t req req' request' Hlive Hne Hreq Hpost Hreq' Hpost'.
    destruct (CallTool_handler_returns client request w) as (r & w1 & H1 & _).
    destruct (CallTool_handler_returns client request' w1) as (r' & w2 & H2 & _).
    pose proof (CallTool_handler_sessions client request w) as (Ht1 & _).
    rewrite H1 in Ht1. simpl in Ht1.
    exists r, w1, r', w2. split; [exact H1|]. split; [exact H2|].
    destruct (lookup_session_header req sid w Hreq Hne) as (Hl & _).
    destruct (lookup_session_header req' sid w1 Hreq' Hne) as (Hl' & _).
    rewrite Hlive in Hl. rewrite Ht1, Hlive in Hl'.
    simpl.
    rewrite (mcp_endpoint_found isInit client req _ w t Hl).
    unfold transport_handleRequest. rewrite Hpost. simpl.
    unfold bind at 1. rewrite H1. simpl.
    rewrite (mcp_endpoint_found isInit client req' _ w1 t Hl').
    unfold transport_handleRequest. rewrite Hpost'. simpl.
    unfold bind at 1. rewrite H2. simpl. reflexivity.
Qed.

(** The upstream answers 500 to an invocation on a live session: the
    result is error-tagged and carries the upstream's text; the probe
    sent next on the same session succeeds. *)
Lemma upstream_failure_contained_witness :
  CallTool_handler Sample.client Sample.applications_call Sample.flaky_world =
    (Normal {| content :=
                 [ {| content_type := "text";
                      content_text :=
                        JSON_stringify
                          (JObj [("success", JBool false);
                                 ("error", JStr ("API request failed: 500 Internal Server Error"
                                                 +:+ LF +:+ "Response: upstream exploded"));
                                 ("tool", JStr "get_event_applications");
                                 ("timestamp", JStr "2025-01-01T00:00:00.000Z");
                                 ("details", JStr "Failed to execute MCP tool: get_event_applications")])
                          2 |} ];
               isError := Some true |},
     issued (request_for Sample.client
               "/events/11111111-1111-1111-1111-111111111111/applications")
       Sample.flaky_world) /\
  exists r w1 r' w2,
    CallTool_handler Sample.client Sample.applications_call Sample.flaky_world =
      (Normal r, w1) /\
    CallTool_handler Sample.client Sample.probe_call w1 = (Normal r', w2) /\
    run has_initialize_method Sample.client
        [Incoming (Sample.call_on "session-1")
           [Dispatch (ToolsCall Sample.applications_call)];
         Incoming (Sample.call_on "session-1")
           [Dispatch (ToolsCall Sample.probe_call)]] Sample.flaky_world =
      ([Some (Handled Sample.live_transport [ToolResult r]);
        Some (Handled Sample.live_transport [ToolResult r'])], w2).
Proof.
  assert (Hne : "session-1" <> "") by discriminate.
  destruct (upstream_failure_contained Sample.client Sample.applications_call
              Sample.flaky_world) as (_ & Hfail & Hnext).
  split.
  - exact (Hfail "/events/11111111-1111-1111-1111-111111111111/applications" _ eq_refl
             (failure_status Sample.server_error "upstream exploded" eq_refl eq_refl)).
  - exact (Hnext has_initialize_method "session-1" Sample.live_transport
             (Sample.call_on "session-1") (Sample.call_on "session-1")
             Sample.probe_call eq_refl Hne eq_refl eq_refl eq_refl eq_refl).
Defined.

(** ** Traces of the server *)

Section TraceFacts.

Variable isInitializeRequest : option JValue -> bool.
Variable client : VercelApiClient.

Lemma run_cons (e : Event) (rest : list Event) (w : World) :
  run isInitializeRequest client (e :: rest) w =
    (fst (serve isInitializeRequest client e w)
       :: fst (run isInitializeRequest client rest
                 (snd (serve isInitializeRequest client e w))),
     snd (run isInitializeRequest client rest
            (snd (serve isInitializeRequest client e w)))).
Proof.
  simpl. destruct (serve isInitializeRequest client e w) as [r w']. simpl.
  destruct (run isInitializeRequest client rest w') as [rs w'']. reflexivity.
Qed.

Lemma snd_respond (o : Completion (Transport * list HandlerResult) * World) :
  snd (respond o) = snd o.
Proof. destruct o as [[r|e] w']; reflexivity. Qed.

Lemma serve_Incoming (req : HttpRequest) (script : list SdkStep) (w : World) :
  exists resp,
    mcp_endpoint isInitializeRequest client req script w =
      (Normal resp, snd (serve isInitializeRequest client (Incoming req script) w)) /\
    fst (serve isInitializeRequest client (Incoming req script) w) = Some resp.
Proof.
  simpl. destruct (mcp_endpoint isInitializeRequest client req script w)
    as [[resp|e] w'] eqn:H.
  - exists resp. split; reflexivity.
  - exfalso. unfold mcp_endpoint, try_catch in H.
    match type of H with
    | (match ?b with _ => _ end) = _ => destruct b as [[r|e'] w1]
    end; discriminate.
Qed.

Lemma onclose_shrinks (t : Transport) (w : World) (sid : string) (t' : Transport) :
  transports (snd (onclose t w)) !! sid = Some t' -> transports w !! sid = Some t'.
Proof.
  unfold onclose. destruct (sessionId t) as [own|]; [|exact (fun H => H)].
  destruct (truthy_string own); [|exact (fun H => H)]. simpl.
  intros H. apply lookup_delete_Some in H as (_ & H). exact H.
Qed.

(** What an event does to the session table: it leaves it as it is or
    removes an entry, unless it is a handshake that opens a session, which
    adds the transport it constructs under the id the SDK announces. *)
Lemma serve_table (e : Event) (w : World) :
  keyed_by_sessionId w ->
  allocated w <= allocated (snd (serve isInitializeRequest client e w)) /\
  ((forall sid t,
      transports (snd (serve isInitializeRequest client e w)) !! sid = Some t ->
      transports w !! sid = Some t) \/
   (exists req script new,
      e = Incoming req script /\ is_handshake isInitializeRequest req = true /\
      lookup_session req w = None /\ generated script = Some new /\
      transports (snd (serve isInitializeRequest client e w)) =
        <[new := {| transport_id := allocated w; sessionId := Some new |}]>
          (transports w) /\
      allocated (snd (serve isInitializeRequest client e w)) = S (allocated w))).
Proof.
  intros Hk. destruct e as [req script | t | now].
  - destruct (serve_Incoming req script w) as (resp & Hm & _).
    remember (snd (serve isInitializeRequest client (Incoming req script) w)) as w'
      eqn:Hw' in *. clear Hw'.
    apply (f_equal snd) in Hm. simpl in Hm. subst w'.
    destruct (lookup_session req w) as [found|] eqn:Hl.
    + rewrite (mcp_endpoint_found _ _ _ _ _ _ Hl), snd_respond.
      assert (Hs : is_Some (sessionId found)).
      { unfold lookup_session in Hl.
        destruct (mcp_session_id req) as [sid|]; [|discriminate].
        destruct (truthy_string sid); [|discriminate].
        rewrite (Hk sid found Hl). eexists; reflexivity. }
      destruct (transport_handleRequest_live client found req script w Hs)
        as (Ht & Ha & _).
      rewrite Ha. split; [lia|]. left. intros sid t. rewrite Ht.
      destruct (String.eqb (method req) "DELETE" && closes script);
        [apply onclose_shrinks | exact (fun H => H)].
    + destruct (is_handshake isInitializeRequest req) eqn:Hh.
      * rewrite (mcp_endpoint_handshake _ _ _ _ _ Hl Hh), snd_respond.
        rewrite handleRequest_allocated. simpl. split; [lia|].
        rewrite handleRequest_fresh by reflexivity. simpl.
        destruct (generated script) as [new|] eqn:Hg.
        -- right. exists req, script, new. auto 10.
        -- left. exact (fun sid t H => H).
      * destruct (truthy_opt_string (mcp_session_id req)) eqn:Ht.
        -- rewrite (mcp_endpoint_invalid _ _ _ _ _ Hl Hh Ht). simpl.
           split; [lia|]. left. exact (fun sid t H => H).
        -- rewrite (mcp_endpoint_missing _ _ _ _ _ Hh Ht). simpl.
           split; [lia|]. left. exact (fun sid t H => H).
  - simpl. rewrite onclose_allocated. split; [lia|]. left.
    intros sid t'. apply onclose_shrinks.
  - simpl. split; [lia|]. left. exact (fun sid t H => H).
Qed.

Lemma serve_keyed (e : Event) (w : World) :
  keyed_by_sessionId w ->
  keyed_by_sessionId (snd (serve isInitializeRequest client e w)).
Proof.
  intros Hk sid t Hl.
  destruct (serve_table e w Hk)
    as (_ & [Hsub | (req & script & new & _ & _ & _ & _ & Ht & _)]).
  - exact (Hk sid t (Hsub sid t Hl)).
  - rewrite Ht in Hl. destruct (decide (new = sid)) as [->|Hne].
    + rewrite lookup_insert_eq in Hl. injection Hl as <-. reflexivity.
    + rewrite lookup_insert_ne in Hl by assumption. exact (Hk sid t Hl).
Qed.

(** A session id enters the table only through a handshake that opens
    it. *)
Lemma serve_new_session (e : Event) (w : World) (sid : string) :
  keyed_by_sessionId w ->
  is_Some (transports (snd (serve isInitializeRequest client e w)) !! sid) ->
  is_Some (transports w !! sid) \/
  exists req script,
    e = Incoming req script /\ is_handshake isInitializeRequest req = true /\
    lookup_session req w = None /\ generated script = Some sid.
Proof.
  intros Hk [t Hl].
  destruct (serve_table e w Hk)
    as (_ & [Hsub | (req & script & new & He & Hh & Hn & Hg & Ht & _)]).
  - left. exists t. exact (Hsub sid t Hl).
  - rewrite Ht in Hl. destruct (decide (new = sid)) as [->|Hne].
    + right. exists req, script. auto.
    + rewrite lookup_insert_ne in Hl by assumption. left. exists t. exact Hl.
Qed.

Lemma run_keyed (events : list Event) (w : World) :
  keyed_by_sessionId w ->
  keyed_by_sessionId (snd (run isInitializeRequest client events w)).
Proof.
  revert w. induction events as [|e rest IH]; intros w Hk; [exact Hk|].
  rewrite run_cons. simpl snd. apply IH. apply serve_keyed. exact Hk.
Qed.

Lemma opened_by_handshake_cons (e : Event) (rest : list Event) (w : World)
    (j : nat) (sid : string) :
  opened_by_handshake isInitializeRequest client rest
    (snd (serve isInitializeRequest client e w)) j sid ->
  opened_by_handshake isInitializeRequest client (e :: rest) w (S j) sid.
Proof.
  intros (req & script & He & Hh & Hl & Hg). exists req, script.
  split; [exact He|]. split; [exact Hh|]. split; [|exact Hg].
  unfold world_before in *. simpl take. rewrite run_cons. exact Hl.
Qed.

(** The answer to the [i]-th event and the world it leaves are those of
    serving it in the world the events before it have left. *)
Lemma run_at (events : list Event) (w : World) (i : nat) (e : Event) :
  events !! i = Some e ->
  fst (run isInitializeRequest client events w) !! i =
    Some (fst (serve isInitializeRequest client e
                 (snd (run isInitializeRequest client (take i events) w)))) /\
  snd (run isInitializeRequest client (take (S i) events) w) =
    snd (serve isInitializeRequest client e
           (snd (run isInitializeRequest client (take i events) w))).
Proof.
  revert w i. induction events as [|e0 rest IH]; intros w i He.
  - rewrite lookup_nil in He. discriminate.
  - destruct i as [|i].
    + injection He as ->. simpl take. rewrite !run_cons. split; reflexivity.
    + simpl in He. simpl take. rewrite !run_cons. simpl fst. simpl snd.
      exact (IH (snd (serve isInitializeRequest client e0 w)) i He).
Qed.

(** Every session in the table was there at the start or was opened by a
    handshake since. *)
Lemma live_sessions_opened (events : list Event) (w : World) (n : nat) (sid : string) :
  keyed_by_sessionId w ->
  is_Some (transports (snd (run isInitializeRequest client (take n events) w)) !! sid) ->
  is_Some (transports w !! sid) \/
  exists j, j < n /\ opened_by_handshake isInitializeRequest client events w j sid.
Proof.
  revert w n. induction events as [|e rest IH]; intros w n Hk Hlive.
  - rewrite take_nil in Hlive. left. exact Hlive.
  - destruct n as [|n]; [left; exact Hlive|].
    simpl take in Hlive. rewrite run_cons in Hlive. simpl snd in Hlive.
    destruct (IH _ n (serve_keyed e w Hk) Hlive) as [Hnow | (j & Hj & Hop)].
    + destruct (serve_new_session e w sid Hk Hnow)
        as [Hold | (req & script & -> & Hh & Hl & Hg)].
      * left. exact Hold.
      * right. exists 0. split; [lia|]. exists req, script.
        split; [reflexivity|]. split; [exact Hh|]. split; [exact Hl|exact Hg].
    + right. exists (S j). split; [lia|]. apply opened_by_handshake_cons. exact Hop.
Qed.

(** Before the first handshake nothing is sent upstream and the table
    stays empty. *)
Lemma before_any_handshake (events : list Event) (w : World) (n : nat) :
  transports w = ∅ ->
  (forall j req script, j < n -> events !! j = Some (Incoming req script) ->
     is_handshake isInitializeRequest req = false) ->
  fetched (snd (run isInitializeRequest client (take n events) w)) = fetched w /\
  transports (snd (run isInitializeRequest client (take n events) w)) = ∅ /\
  allocated (snd (run isInitializeRequest client (take n events) w)) = allocated w.
Proof.
  revert w n. induction events as [|e rest IH]; intros w n Hempty Hnone.
  - rewrite take_nil. auto.
  - destruct n as [|n]; [auto|].
    simpl take. rewrite run_cons. simpl snd.
    assert (Hstep : fetched (snd (serve isInitializeRequest client e w)) = fetched w /\
                    transports (snd (serve isInitializeRequest client e w)) = ∅ /\
                    allocated (snd (serve isInitializeRequest client e w)) = allocated w).
    { destruct e as [req script | t | now].
      - assert (Hh : is_handshake isInitializeRequest req = false)
          by (apply (Hnone 0 req script); [lia | reflexivity]).
        assert (Hl : lookup_session req w = None).
        { unfold lookup_session. destruct (mcp_session_id req) as [sid|]; [|reflexivity].
          destruct (truthy_string sid); [|reflexivity]. rewrite Hempty. apply lookup_empty. }
        destruct (serve_Incoming req script w) as (resp & Hm & _).
        remember (snd (serve isInitializeRequest client (Incoming req script) w)) as w'
          eqn:Hw' in *. clear Hw'.
        destruct (truthy_opt_string (mcp_session_id req)) eqn:Ht.
        + rewrite (mcp_endpoint_invalid _ _ _ _ _ Hl Hh Ht) in Hm.
          injection Hm as _ <-. auto.
        + rewrite (mcp_endpoint_missing _ _ _ _ _ Hh Ht) in Hm.
          injection Hm as _ <-. auto.
      - simpl. unfold onclose. destruct (sessionId t) as [sid|]; [|auto].
        destruct (truthy_string sid); [|auto]. simpl.
        rewrite Hempty, delete_empty. auto.
      - simpl. auto. }
    destruct Hstep as (Hf & Ht & Ha).
    destruct (IH (snd (serve isInitializeRequest client e w)) n Ht) as (H1 & H2 & H3).
    { intros j req script Hj He. apply (Hnone (S j) req script); [lia | exact He]. }
    rewrite H1, H2, H3. auto.
Qed.

End TraceFacts.

(** C2. Start from an empty session table and serve any sequence of
    events. A request that is not a handshake has one of two fates. Either
    it is refused, with HTTP 400 and code -32000, and the world is exactly
    as before it: no transport saw it, no handler ran, nothing went
    upstream. Or it carries a session id that an earlier event of the
    sequence, a handshake, opened, and that is still in the table. Hence
    as long as no handshake has been served nothing is sent upstream and
    the table stays empty. A request without a session id that is not an
    initialize request is answered with HTTP 400, code -32000 and "No
    session ID provided. Initialize first.", and changes nothing. *)
Theorem no_dispatch_before_handshake (isInitializeRequest : option JValue -> bool)
    (client : VercelApiClient) (events : list Event) (w0 : World) :
  transports w0 = ∅ ->
  (forall i req script,
     events !! i = Some (Incoming req script) ->
     is_handshake isInitializeRequest req = false ->
     (fst (run isInitializeRequest client events w0) !! i =
        Some (Some (JsonRpcError 400 (-32000)
                      (if truthy_opt_string (mcp_session_id req)
                       then "Invalid session ID or session expired"
                       else "No session ID provided. Initialize first.") None)) /\
      world_before isInitializeRequest client events w0 (S i) =
        world_before isInitializeRequest client events w0 i)
     \/
     (exists sid j t,
        mcp_session_id req = Some sid /\ j < i /\
        opened_by_handshake isInitializeRequest client events w0 j sid /\
        transports (world_before isInitializeRequest client events w0 i) !! sid = Some t /\
        sessionId t = Some sid)) /\
  (forall n,
     (forall j req script, j < n -> events !! j = Some (Incoming req script) ->
        is_handshake isInitializeRequest req = false) ->
     fetched (world_before isInitializeRequest client events w0 n) = fetched w0 /\
     transports (world_before isInitializeRequest client events w0 n) = ∅) /\
  (forall w req script,
     mcp_session_id req = None -> isInitializeRequest (body req) = false ->
     mcp_endpoint isInitializeRequest client req script w =
       (Normal (JsonRpcError 400 (-32000) "No session ID provided. Initialize first." None),
        w)).
Proof.
  intros Hempty.
  assert (Hk : keyed_by_sessionId w0).
  { intros sid t. rewrite Hempty, lookup_empty. discriminate. }
  split; [|split].
  - intros i req script He Hh. unfold world_before.
    destruct (run_at isInitializeRequest client events w0 i _ He) as (Hr & Hw).
    rewrite Hr, Hw.
    pose proof (run_keyed isInitializeRequest client (take i events) w0 Hk) as Hki.
    remember (snd (run isInitializeRequest client (take i events) w0)) as wi eqn:Hwi.
    destruct (lookup_session req wi) as [t|] eqn:Hl.
    + right. unfold lookup_session in Hl.
      destruct (mcp_session_id req) as [sid|]; [|discriminate].
      destruct (truthy_string sid); [|discriminate].
      assert (Hlive : is_Some (transports
                (snd (run isInitializeRequest client (take i events) w0)) !! sid))
        by (rewrite <- Hwi; eexists; exact Hl).
      destruct (live_sessions_opened isInitializeRequest client events w0 i sid Hk Hlive)
        as [Hold | (j & Hj & Hop)].
      * rewrite Hempty, lookup_empty in Hold. destruct Hold as [x Hx]. discriminate.
      * exists sid, j, t. split; [reflexivity|]. split; [exact Hj|].
        split; [exact Hop|]. split; [exact Hl|]. exact (Hki sid t Hl).
    + left.
      destruct (serve_Incoming isInitializeRequest client req script wi)
        as (resp & Hm & Hf).
      rewrite Hf.
      remember (snd (serve isInitializeRequest client (Incoming req script) wi)) as w'
        eqn:Hw' in *. clear Hw'.
      destruct (truthy_opt_string (mcp_session_id req)) eqn:Ht.
      * rewrite (mcp_endpoint_invalid _ _ _ _ _ Hl Hh Ht) in Hm.
        injection Hm as <- <-. split; reflexivity.
      * rewrite (mcp_endpoint_missing _ _ _ _ _ Hh Ht) in Hm.
        injection Hm as <- <-. split; reflexivity.
  - intros n Hnone.
    destruct (before_any_handshake isInitializeRequest client events w0 n Hempty Hnone)
      as (H1 & H2 & _).
    split; assumption.
  - intros w req script Hnone Hinit.
    apply mcp_endpoint_missing.
    + unfold is_handshake. rewrite Hinit. apply andb_false_r.
    + rewrite Hnone. reflexivity.
Qed.

(** The tool call made before the handshake is refused and leaves the
    world as it was; the one made on the session the handshake opened
    carries an id for which the handshake is found before it in the
    trace. *)
Lemma no_dispatch_before_handshake_witness :
  (fst (run has_initialize_method Sample.client Sample.early_call_then_handshake
          (Sample.world_with (Sample.json_reply Sample.probe_body))) !! 0 =
     Some (Some (JsonRpcError 400 (-32000)
                   "No session ID provided. Initialize first." None)) /\
   world_before has_initialize_method Sample.client Sample.early_call_then_handshake
     (Sample.world_with (Sample.json_reply Sample.probe_body)) 1 =
   world_before has_initialize_method Sample.client Sample.early_call_then_handshake
     (Sample.world_with (Sample.json_reply Sample.probe_body)) 0) /\
  (exists sid j t,
     mcp_session_id (Sample.call_on "session-1") = Some sid /\ j < 2 /\
     opened_by_handshake has_initialize_method Sample.client
       Sample.early_call_then_handshake
       (Sample.world_with (Sample.json_reply Sample.probe_body)) j sid /\
     transports (world_before has_initialize_method Sample.client
                   Sample.early_call_then_handshake
                   (Sample.world_with (Sample.json_reply Sample.probe_body)) 2)
       !! sid = Some t /\
     sessionId t = Some sid).
Proof.
  destruct (no_dispatch_before_handshake has_initialize_method Sample.client
              Sample.early_call_then_handshake
              (Sample.world_with (Sample.json_reply Sample.probe_body)) eq_refl)
    as (Hfate & _ & _).
  split.
  - destruct (Hfate 0 Sample.call_without_session
                [Dispatch (ToolsCall Sample.probe_call)] eq_refl eq_refl)
      as [Hrefused | (sid & j & t & Hsid & _)].
    + exact Hrefused.
    + discriminate Hsid.
  - destruct (Hfate 2 (Sample.call_on "session-1")
                [Dispatch (ToolsCall Sample.probe_call)] eq_refl eq_refl)
      as [(Hrefused & _) | Hopened].
    + vm_compute in Hrefused. discriminate Hrefused.
    + exact Hopened.
Defined.

(** ** The scenarios of the specification, run on the model *)

(** Upstream 500, then a successful probe on the same session. *)
Example upstream_500_then_probe :
  fst (run has_initialize_method Sample.client
         [Incoming (Sample.call_on "session-1")
            [Dispatch (ToolsCall Sample.applications_call)];
          Incoming (Sample.call_on "session-1")
            [Dispatch (ToolsCall Sample.probe_call)]] Sample.flaky_world) =
    [Some (Handled Sample.live_transport
             [ToolResult (failure_result
                            ("API request failed: 500 Internal Server Error" +:+ LF
                             +:+ "Response: upstream exploded")
                            "get_event_applications" "2025-01-01T00:00:00.000Z")]);
     Some (Handled Sample.live_transport
             [ToolResult (success_result
                            (connection_report Sample.client Sample.probe_data))])].
Proof. vm_compute. reflexivity. Qed.

(** A tool call before the handshake, the handshake, the tool call again. *)
Example early_call_refused_then_served :
  fst (run has_initialize_method Sample.client Sample.early_call_then_handshake
         (Sample.world_with (Sample.json_reply Sample.probe_body))) =
    [Some SessionMissing;
     Some (Handled {| transport_id := 0; sessionId := Some "session-1" |} []);
     Some (Handled {| transport_id := 0; sessionId := Some "session-1" |}
             [ToolResult (success_result
                            (connection_report Sample.client Sample.probe_data))])].
Proof. vm_compute. reflexivity. Qed.

(** Teardown: once the transport of a session has closed, its id is
    refused. *)
Example closed_session_refused :
  fst (run has_initialize_method Sample.client
         [TransportClosed Sample.live_transport;
          Incoming (Sample.call_on "session-1") [Dispatch (ToolsCall Sample.probe_call)]]
         Sample.flaky_world) =
    [None; Some SessionInvalid].
Proof. vm_compute. reflexivity. Qed.

(** Arguments of an event tool that hold a number under [eventId] pass the
    check and reach the upstream with the number rendered in the path. *)
Example numeric_eventId_reaches_upstream :
  fetched (snd (CallTool_handler Sample.client
                  {| call_name := "get_event_evaluations";
                     call_arguments := Some [("eventId", JNum "42")] |}
                  (Sample.world_with Sample.unreachable))) =
    [request_for Sample.client "/events/42/evaluations"].
Proof. reflexivity. Qed.

(** * Further properties of the code *)

(** ** The upstream client and the dispatcher *)

Lemma issued_changes (call : FetchCall) (w : World) : issued call w <> w.
Proof.
  intros H. apply (f_equal fetched) in H. simpl in H.
  apply (f_equal length) in H. rewrite length_app in H. simpl in H. lia.
Qed.

(** The world an invocation leaves: one more request when it has an
    endpoint, the same world when it has none. *)
Lemma CallTool_handler_world (client : VercelApiClient) (request : CallToolRequest)
    (w : World) :
  snd (CallTool_handler client request w) =
    match endpoint_of request with
    | Some endpoint => issued (request_for client endpoint) w
    | None => w
    end.
Proof.
  unfold CallTool_handler, try_catch.
  destruct (endpoint_of request) as [endpoint|] eqn:He.
  - rewrite (dispatch_endpoint client request endpoint w He).
    pose proof (makeRequest_issues client endpoint w) as Hw.
    destruct (makeRequest client endpoint w) as [[d|e] w']; simpl in *; exact Hw.
  - destruct (dispatch_no_endpoint client request w He) as (e & ->). reflexivity.
Qed.

(** The outcome of [makeRequest] is decided by the reply alone. *)
Lemma makeRequest_cases (client : VercelApiClient) (endpoint : string) (w : World) :
  (exists r data d,
      upstream w (length (fetched w)) (request_for client endpoint) = FetchResolved r /\
      ok r = true /\ json r = Normal data /\
      truthy_opt (field data "success") = true /\
      field data "data" = Some d /\ truthy d = true /\
      fst (makeRequest client endpoint w) = Normal d) \/
  (exists msg e,
      UpstreamFailure (upstream w (length (fetched w)) (request_for client endpoint)) msg /\
      fst (makeRequest client endpoint w) = Abrupt e /\ error_message e = msg).
Proof.
  assert (Hfail : forall msg,
            UpstreamFailure (upstream w (length (fetched w)) (request_for client endpoint)) msg ->
            exists msg e,
              UpstreamFailure (upstream w (length (fetched w)) (request_for client endpoint)) msg /\
              fst (makeRequest client endpoint w) = Abrupt e /\ error_message e = msg).
  { intros msg Hf. destruct (makeRequest_fails client endpoint w msg Hf) as (e & Hm & He).
    exists msg, e. rewrite Hm. auto. }
  destruct (upstream w (length (fetched w)) (request_for client endpoint))
    as [e|r] eqn:Hup.
  { right. eapply Hfail. constructor. }
  destruct (ok r) eqn:Hok.
  2:{ right. destruct (text r) as [body|e] eqn:Ht; eapply Hfail.
      - apply failure_status; eassumption.
      - apply failure_status_unread; eassumption. }
  destruct (json r) as [data|e] eqn:Hj.
  2:{ right. eapply Hfail. apply malformed_body; eassumption. }
  destruct (truthy_opt (field data "success")) eqn:Hs.
  2:{ right.
      assert (data = JNull \/ data <> JNull) as [->|Hnn]
        by (destruct data; [left; reflexivity | right; discriminate ..]).
      - eapply Hfail. apply null_body; assumption.
      - destruct (nullish_or (field data "error") "Unknown error")
          as [errorText|e] eqn:Herr.
        + destruct (nullish_or (field data "details") "No details")
            as [detailsText|e] eqn:Hdet; eapply Hfail.
          * eapply success_false; eassumption.
          * eapply details_not_convertible; eassumption.
        + eapply Hfail. eapply error_not_convertible; eassumption. }
  destruct (field data "data") as [d|] eqn:Hd.
  2:{ right. eapply Hfail. eapply success_without_data; try eassumption.
      rewrite Hd. reflexivity. }
  destruct (truthy d) eqn:Htd.
  2:{ right. eapply Hfail. eapply success_without_data; try eassumption.
      rewrite Hd. exact Htd. }
  left. exists r, data, d.
  rewrite (makeRequest_succeeds client endpoint w r data d Hup Hok Hj Hs Hd Htd). auto 10.
Qed.


(** X2. An invocation that passes the checks sends one request, each
    tool to its own path: the event id is rendered into
    [/events/<id>/applications], [/evaluations], [/criteria] or
    [/questions] as the template literal renders it, without escaping, and
    the probe goes to [/test] whatever its arguments. A truthy event id
    that the template literal cannot render, an object with a [toString]
    property of its own, sends nothing: the invocation fails with the
    TypeError's message. *)
Theorem tool_request_paths (client : VercelApiClient) (args : JObject) (v : JValue)
    (w : World) :
  obj_get "eventId" args = Some v -> truthy v = true ->
  let sent name any :=
    fetched (snd (CallTool_handler client
                    {| call_name := name; call_arguments := any |} w)) in
  let request path :=
    {| url := baseUrl client +:+ path;
       authorization := "Bearer " +:+ apiKey client;
       contentType := "application/json";
       userAgent := "FTC-MCP-Server/1.0.0" |} in
  match ToString v with
  | Normal id =>
      sent "get_event_applications" (Some args) =
        (fetched w ++ [request ("/events/" +:+ id +:+ "/applications")])%list /\
      sent "get_event_evaluations" (Some args) =
        (fetched w ++ [request ("/events/" +:+ id +:+ "/evaluations")])%list /\
      sent "get_evaluation_criteria" (Some args) =
        (fetched w ++ [request ("/events/" +:+ id +:+ "/criteria")])%list /\
      sent "get_application_questions" (Some args) =
        (fetched w ++ [request ("/events/" +:+ id +:+ "/questions")])%list
  | Abrupt e =>
      forall t, In t tools -> requires_eventId t = true ->
        CallTool_handler client
            {| call_name := tool_name t; call_arguments := Some args |} w =
          (Normal {| content :=
                       [ {| content_type := "text";
                            content_text :=
                              JSON_stringify
                                (JObj [("success", JBool false);
                                       ("error", JStr (error_message e));
                                       ("tool", JStr (tool_name t));
                                       ("timestamp", JStr (clock w));
                                       ("details",
                                        JStr ("Failed to execute MCP tool: "
                                              +:+ tool_name t))]) 2 |} ];
                     isError := Some true |},
           w)
  end /\
  (forall any, sent "test_connection" any = (fetched w ++ [request "/test"])%list).
Proof.
  intros Hget Hv sent request. unfold sent. split.
  - destruct (ToString v) as [id|e] eqn:Hid.
    + repeat split; rewrite CallTool_handler_world;
        unfold endpoint_of, event_endpoint; simpl; rewrite ?Hget, ?Hv, ?Hid; reflexivity.
    + intros t Ht Hreq.
      destruct (event_tools t Ht Hreq) as [-> | [-> | [-> | ->]]];
        unfold CallTool_handler, try_catch, dispatch, event_tool, event_request, bind,
          lift, destructure_eventId; simpl; rewrite Hget; simpl; rewrite Hv; simpl;
          unfold bind, lift; rewrite Hid; reflexivity.
  - intros any. rewrite CallTool_handler_world. reflexivity.
Qed.

Lemma tool_request_paths_witness :
  fetched (snd (CallTool_handler Sample.client
                  {| call_name := "get_evaluation_criteria";
                     call_arguments := Some [("eventId", JStr "spring/2025?x=1")] |}
                  (Sample.world_with Sample.unreachable))) =
    [ {| url := "https://ftc.example/api/mastra/events/spring/2025?x=1/criteria";
         authorization := "Bearer secret";
         contentType := "application/json";
         userAgent := "FTC-MCP-Server/1.0.0" |} ].
Proof.
  exact (proj1 (proj2 (proj2 (proj1
           (tool_request_paths Sample.client [("eventId", JStr "spring/2025?x=1")]
              (JStr "spring/2025?x=1") (Sample.world_with Sample.unreachable)
              eq_refl eq_refl))))).
Defined.

(** X3. When the upstream answers an event tool with a success payload,
    the result is that payload's [data], unchanged, as the one text
    block, and it is not error-tagged. *)
Theorem event_data_passed_through (client : VercelApiClient) (request : CallToolRequest)
    (endpoint : string) (w : World) (r : FetchResponse) (data d : JValue) :
  endpoint_of request = Some endpoint ->
  call_name request <> "test_connection" ->
  upstream w (length (fetched w)) (request_for client endpoint) = FetchResolved r ->
  ok r = true -> json r = Normal data ->
  truthy_opt (field data "success") = true ->
  field data "data" = Some d -> truthy d = true ->
  CallTool_handler client request w =
    (Normal {| content := [ {| content_type := "text";
                               content_text := JSON_stringify d 2 |} ];
               isError := None |},
     issued (request_for client endpoint) w).
Proof.
  intros He Hname Hup Hok Hj Hs Hd Ht.
  unfold CallTool_handler, try_catch.
  rewrite (dispatch_endpoint client request endpoint w He).
  rewrite (makeRequest_succeeds client endpoint w r data d Hup Hok Hj Hs Hd Ht).
  unfold rendered_payload. apply String.eqb_neq in Hname. rewrite Hname. reflexivity.
Qed.

Lemma event_data_passed_through_witness :
  CallTool_handler Sample.client Sample.applications_call
      (Sample.world_with (Sample.json_reply Sample.probe_body)) =
    (Normal {| content := [ {| content_type := "text";
                               content_text := JSON_stringify Sample.probe_data 2 |} ];
               isError := None |},
     issued (request_for Sample.client
               "/events/11111111-1111-1111-1111-111111111111/applications")
       (Sample.world_with (Sample.json_reply Sample.probe_body))).
Proof.
  assert (Hname : call_name Sample.applications_call <> "test_connection")
    by discriminate.
  exact (event_data_passed_through Sample.client Sample.applications_call
           "/events/11111111-1111-1111-1111-111111111111/applications"
           (Sample.world_with (Sample.json_reply Sample.probe_body))
           _ Sample.probe_body Sample.probe_data
           eq_refl Hname eq_refl eq_refl eq_refl eq_refl eq_refl eq_refl).
Defined.

(** X4. An event tool tests [eventId] for truthiness, not for presence:
    on an arguments object it answers "eventId is required" without
    calling the upstream exactly when the value is absent or falsy (the
    empty string, [null], [false], the number 0). Any truthy value, a
    string or not, passes. *)
Theorem eventId_checked_for_truthiness (client : VercelApiClient) (t : Tool)
    (args : JObject) (w : World) :
  In t tools -> requires_eventId t = true ->
  (CallTool_handler client
       {| call_name := tool_name t; call_arguments := Some args |} w =
     (Normal (failure_result "eventId is required" (tool_name t) (clock w)), w)
   <-> truthy_opt (obj_get "eventId" args) = false).
Proof.
  intros Ht Hreq. split.
  - intros H. destruct (truthy_opt (obj_get "eventId" args)) eqn:Hv; [|reflexivity].
    exfalso. destruct (obj_get "eventId" args) as [v|] eqn:Hget; [|discriminate].
    simpl in Hv. destruct (ToString v) as [id|e] eqn:Hid.
    + apply (f_equal snd) in H. rewrite CallTool_handler_world in H. simpl in H.
      assert (He : exists endpoint,
                endpoint_of {| call_name := tool_name t; call_arguments := Some args |} =
                  Some endpoint).
      { unfold endpoint_of, event_endpoint; simpl. rewrite Hget, Hv, Hid.
        destruct (event_tools t Ht Hreq) as [-> | [-> | [-> | ->]]]; simpl; eauto. }
      destruct He as (endpoint & He). rewrite He in H.
      exact (issued_changes _ _ H).
    + pose proof (ToString_Abrupt v e Hid) as ->.
      assert (Hthrown : dispatch client (tool_name t) (Some args) w =
                (Abrupt (JsError "Cannot convert object to primitive value"), w)).
      { unfold dispatch.
        destruct (event_tools t Ht Hreq) as [-> | [-> | [-> | ->]]]; simpl;
          apply (event_tool_not_rendered _ _ _ _ _ _ Hget Hv Hid). }
      unfold CallTool_handler, try_catch in H; simpl in H.
      rewrite Hthrown in H. discriminate H.
  - intros Hfalsy. unfold CallTool_handler, try_catch, dispatch; simpl.
    destruct (event_tools t Ht Hreq) as [-> | [-> | [-> | ->]]]; simpl;
      rewrite (event_tool_falsy _ _ _ Hfalsy); reflexivity.
Qed.

Lemma eventId_checked_for_truthiness_witness :
  CallTool_handler Sample.client
      {| call_name := "get_event_applications";
         call_arguments := Some [("eventId", JNum "0")] |}
      (Sample.world_with Sample.unreachable) =
    (Normal (failure_result "eventId is required" "get_event_applications"
               "2025-01-01T00:00:00.000Z"),
     Sample.world_with Sample.unreachable).
Proof.
  assert (Hin : In Sample.applications_tool tools) by (simpl; right; left; reflexivity).
  exact (proj2 (eventId_checked_for_truthiness Sample.client Sample.applications_tool
                  [("eventId", JNum "0")] (Sample.world_with Sample.unreachable)
                  Hin eq_refl) eq_refl).
Defined.

Lemma registered_without_endpoint (client : VercelApiClient) (request : CallToolRequest)
    (w : World) :
  In (call_name request) (map tool_name tools) ->
  endpoint_of request = None ->
  exists msg,
    dispatch client (call_name request) (call_arguments request) w =
      (Abrupt (JsError msg), w) /\
    (msg = "eventId is required" \/
     msg = "Cannot destructure property 'eventId' of 'args' as it is undefined." \/
     msg = "Cannot convert object to primitive value").
Proof.
  intros Hin. unfold endpoint_of, dispatch.
  destruct request as [name args]; simpl in *.
  assert (Hcases : forall suffix,
    event_endpoint args suffix = None ->
    exists msg,
      event_tool args (fun eventId => event_request client eventId suffix) w =
        (Abrupt (JsError msg), w) /\
      (msg = "eventId is required" \/
       msg = "Cannot destructure property 'eventId' of 'args' as it is undefined." \/
       msg = "Cannot convert object to primitive value")).
  { intros suffix. unfold event_endpoint.
    destruct args as [o|]; [|intros _; eexists; split; [reflexivity|auto]].
    destruct (obj_get "eventId" o) as [v|] eqn:Hget.
    2:{ intros _. eexists. split; [|left; reflexivity].
        unfold event_tool, bind, lift, destructure_eventId; simpl. rewrite Hget.
        reflexivity. }
    destruct (truthy v) eqn:Hv.
    2:{ intros _. eexists. split; [|left; reflexivity].
        unfold event_tool, bind, lift, destructure_eventId; simpl. rewrite Hget.
        simpl. rewrite Hv. reflexivity. }
    destruct (ToString v) as [id|e] eqn:Hid; [discriminate|]. intros _.
    pose proof (ToString_Abrupt v e Hid) as ->.
    eexists. split; [exact (event_tool_not_rendered _ _ _ _ _ _ Hget Hv Hid)|auto]. }
  destruct Hin as [<- | [<- | [<- | [<- | [<- | []]]]]]; simpl;
    try discriminate; apply Hcases.
Qed.

(** X5. Every invocation is answered with one text block, in one of two
    shapes, and which one is decided by the request and the upstream's
    reply. When the request has an endpoint and the upstream answers it
    with a success payload, the block is untagged and serialises the
    payload's [data] (set in the connection report for the probe), and
    one request has been sent. In every other case the block is the
    error-tagged failure object that names the requested tool and carries
    the time of the call and the message of the failure: that of the
    upstream failure, after one request, or that of the refusal (an
    unknown tool, a missing event id, arguments that cannot be
    destructured, an event id that cannot be rendered), with nothing
    sent. *)
Theorem result_envelope (client : VercelApiClient) (request : CallToolRequest)
    (w : World) :
  (exists endpoint r data d,
     endpoint_of request = Some endpoint /\
     upstream w (length (fetched w)) (request_for client endpoint) = FetchResolved r /\
     ok r = true /\ json r = Normal data /\
     truthy_opt (field data "success") = true /\
     field data "data" = Some d /\ truthy d = true /\
     CallTool_handler client request w =
       (Normal {| content :=
                    [ {| content_type := "text";
                         content_text :=
                           JSON_stringify
                             (if String.eqb (call_name request) "test_connection"
                              then connection_report client d else d) 2 |} ];
                  isError := None |},
        issued (request_for client endpoint) w))
  \/
  (exists msg w',
     CallTool_handler client request w =
       (Normal {| content :=
                    [ {| content_type := "text";
                         content_text :=
                           JSON_stringify
                             (JObj [("success", JBool false);
                                    ("error", JStr msg);
                                    ("tool", JStr (call_name request));
                                    ("timestamp", JStr (clock w));
                                    ("details", JStr ("Failed to execute MCP tool: "
                                                      +:+ call_name request))]) 2 |} ];
                  isError := Some true |},
        w') /\
     ((endpoint_of request = None /\ w' = w /\
       (msg = "Unknown tool: " +:+ call_name request \/
        msg = "eventId is required" \/
        msg = "Cannot destructure property 'eventId' of 'args' as it is undefined." \/
        msg = "Cannot convert object to primitive value")) \/
      (exists endpoint,
         endpoint_of request = Some endpoint /\
         UpstreamFailure
           (upstream w (length (fetched w)) (request_for client endpoint)) msg /\
         w' = issued (request_for client endpoint) w))).
Proof.
  unfold CallTool_handler, try_catch.
  destruct (endpoint_of request) as [endpoint|] eqn:He.
  - rewrite (dispatch_endpoint client request endpoint w He).
    pose proof (makeRequest_issues client endpoint w) as Hw.
    destruct (makeRequest_cases client endpoint w)
      as [(r & data & d & Hup & Hok & Hj & Hs & Hd & Ht & Hm) | (msg & e & Hf & Hm & Hmsg)].
    + left. exists endpoint, r, data, d.
      destruct (makeRequest client endpoint w) as [[d'|e] w']; simpl in *;
        [|discriminate]. injection Hm as ->. subst w'. auto 10.
    + right. exists msg, (issued (request_for client endpoint) w).
      destruct (makeRequest client endpoint w) as [[d'|e'] w']; simpl in *;
        [discriminate|]. injection Hm as ->. subst w' msg.
      split; [reflexivity|]. right. exists endpoint. auto.
  - right.
    destruct (in_dec string_dec (call_name request) (map tool_name tools)) as [Hin|Hout].
    + destruct (registered_without_endpoint client request w Hin He)
        as (msg & -> & Hmsg).
      exists msg, w. split; [reflexivity|]. left. auto.
    + apply not_registered in Hout as (H1 & H2 & H3 & H4 & H5).
      unfold dispatch. rewrite H1, H2, H3, H4, H5.
      exists ("Unknown tool: " +:+ call_name request), w.
      split; [reflexivity|]. left. auto.
Qed.

(** X6. In the connection report the server's own three fields win: the
    report says [mcpServer: "ftc-platform-mcp"], [version: "1.0.0"] and
    the client's status under [apiClient] whatever the upstream's payload
    holds under those names. *)
Theorem connection_report_own_fields (client : VercelApiClient) (d : JValue) :
  field (connection_report client d) "mcpServer" = Some (JStr "ftc-platform-mcp") /\
  field (connection_report client d) "version" = Some (JStr "1.0.0") /\
  field (connection_report client d) "apiClient" =
    Some (JObj [("configured", JBool (configured (getStatus client)));
                ("baseUrl", JStr (baseUrl client));
                ("hasApiKey", JBool (hasApiKey (getStatus client)))]).
Proof.
  unfold connection_report; simpl. repeat split.
  - rewrite !obj_get_set_ne by discriminate. apply obj_get_set_eq.
  - rewrite obj_get_set_ne by discriminate. apply obj_get_set_eq.
  - apply obj_get_set_eq.
Qed.

(** X7. The answer "Unknown tool: <name>", given without calling the
    upstream, is kept for names outside the registry: the handler gives
    it if and only if the name is not one of the registered five. *)
Theorem unknown_tool_iff_unregistered (client : VercelApiClient)
    (request : CallToolRequest) (w : World) :
  CallTool_handler client request w =
    (Normal (failure_result ("Unknown tool: " +:+ call_name request)
               (call_name request) (clock w)), w)
  <-> ~ In (call_name request) (map tool_name tools).
Proof.
  split.
  - intros H Hin.
    destruct (endpoint_of request) as [endpoint|] eqn:He.
    + apply (f_equal snd) in H. rewrite CallTool_handler_world, He in H.
      exact (issued_changes _ _ H).
    + unfold CallTool_handler, try_catch in H.
      destruct (registered_without_endpoint client request w Hin He)
        as (msg & E & [-> | [-> | ->]]);
        rewrite E in H; simpl in H; unfold ret, failure_result, failure_payload in H;
        simpl in H; discriminate H.
  - intros H. apply not_registered in H as (H1 & H2 & H3 & H4 & H5).
    unfold CallTool_handler, try_catch, dispatch.
    rewrite H1, H2, H3, H4, H5. reflexivity.
Qed.

Lemma unknown_tool_iff_unregistered_witness :
  CallTool_handler Sample.client Sample.probe_call
      (Sample.world_with Sample.unreachable) <>
    (Normal (failure_result "Unknown tool: test_connection" "test_connection"
               "2025-01-01T00:00:00.000Z"),
     Sample.world_with Sample.unreachable).
Proof.
  intros H.
  apply (proj1 (unknown_tool_iff_unregistered Sample.client Sample.probe_call
                  (Sample.world_with Sample.unreachable)) H).
  simpl. left. reflexivity.
Defined.

(** ** The endpoint, case by case *)

Section EndpointFacts.

Variable isInitializeRequest : option JValue -> bool.
Variable client : VercelApiClient.

Lemma handleRequest_completes (t : Transport) (script : list SdkStep) (w : World) :
  rejects script = false ->
  exists results,
    fst (handleRequest client t script w) = Normal (initialised_by t script, results).
Proof.
  revert t w. induction script as [|step rest IH]; intros t w Hr.
  - exists []. unfold initialised_by. simpl. destruct (sessionId t); reflexivity.
  - destruct step as [sid | [|request] | e |]; simpl in *; try discriminate.
    4:{ destruct (IH t w Hr) as (results & H). exists results. rewrite H.
        reflexivity. }
    + unfold initialised_by; simpl. destruct (sessionId t) eqn:Hs.
      * destruct (IH t w Hr) as (results & H). exists results. rewrite H.
        unfold initialised_by. rewrite Hs. reflexivity.
      * unfold bind, Map_set; simpl.
        destruct (IH {| transport_id := transport_id t; sessionId := Some sid |}
                    (with_transports (insert sid
                       {| transport_id := transport_id t; sessionId := Some sid |}) w) Hr)
          as (results & H).
        exists results. rewrite H. reflexivity.
    + unfold bind, ListTools_handler, ret; simpl.
      destruct (IH t w Hr) as (results & H).
      destruct (handleRequest client t rest w) as [[r|e] w']; simpl in *; [|discriminate].
      injection H as ->. eexists. unfold initialised_by. simpl. reflexivity.
    + unfold bind.
      destruct (CallTool_handler_returns client request w) as (res & w1 & Hh & _).
      rewrite Hh.
      destruct (IH t w1 Hr) as (results & H).
      destruct (handleRequest client t rest w1) as [[r|e] w']; simpl in *; [|discriminate].
      injection H as ->. eexists. unfold initialised_by. simpl. reflexivity.
Qed.

Lemma handleRequest_rejected (t : Transport) (pre rest : list SdkStep) (e : Thrown)
    (w : World) :
  rejects pre = false ->
  handleRequest client t (pre ++ Reject e :: rest) w =
    (Abrupt e, snd (handleRequest client t pre w)).
Proof.
  revert t w. induction pre as [|step pre IH]; intros t w Hr; [reflexivity|].
  destruct step as [sid | [|request] | e' |]; simpl in *; try discriminate.
  4: exact (IH t w Hr).
  - destruct (sessionId t); [apply IH; exact Hr|].
    unfold bind, Map_set; simpl. apply IH. exact Hr.
  - unfold bind, ListTools_handler, ret; simpl. rewrite (IH t w Hr).
    destruct (handleRequest client t pre w) as [[r|e'] w']; reflexivity.
  - unfold bind.
    destruct (CallTool_handler_returns client request w) as (res & w1 & Hh & _).
    rewrite Hh. rewrite (IH t w1 Hr).
    destruct (handleRequest client t pre w1) as [[r|e'] w']; reflexivity.
Qed.

Lemma generated_before_reject (pre rest : list SdkStep) (e : Thrown) :
  rejects pre = false -> generated (pre ++ Reject e :: rest) = generated pre.
Proof.
  induction pre as [|step pre IH]; intros Hr; [reflexivity|].
  destruct step as [sid | call | e' |]; simpl in *; try discriminate; auto.
Qed.

Lemma handleDeleteRequest_completes (t : Transport) (script : list SdkStep) (w : World) :
  rejects script = false -> fst (handleDeleteRequest t script w) = Normal (t, []).
Proof.
  revert w. induction script as [|step rest IH]; intros w Hr; [reflexivity|].
  destruct step as [sid | call | e |]; simpl in *; try discriminate.
  - destruct rest as [|[]]; exact (IH w Hr).
  - destruct rest as [|[]]; exact (IH w Hr).
  - unfold bind. pose proof (onclose_Normal t w) as Hn.
    destruct (onclose t w) as [c w1]. simpl in Hn. subst c. exact (IH w1 Hr).
Qed.

Lemma fst_respond_Normal (t : Transport) (results : list HandlerResult)
    (o : Completion (Transport * list HandlerResult) * World) :
  fst o = Normal (t, results) -> fst (respond o) = Normal (Handled t results).
Proof. destruct o as [[r|e] w']; simpl; intros [= ->]. reflexivity. Qed.

End EndpointFacts.

(** X8. A handshake registers what it announces: when an initialize
    request is posted without a live session and the SDK announces session
    [sid], a transport is constructed and stored under [sid], the other
    sessions stay as they were, the request is answered by that transport
    unless its handling is rejected, and a later request carrying [sid]
    finds it. *)
Theorem handshake_registers_session (isInitializeRequest : option JValue -> bool)
    (client : VercelApiClient) (req : HttpRequest) (script : list SdkStep)
    (w : World) (sid : string) :
  lookup_session req w = None ->
  is_handshake isInitializeRequest req = true ->
  generated script = Some sid ->
  let opened := {| transport_id := allocated w; sessionId := Some sid |} in
  let w' := snd (mcp_endpoint isInitializeRequest client req script w) in
  transports w' = <[sid := opened]> (transports w) /\
  allocated w' = S (allocated w) /\
  (rejects script = false ->
   exists results,
     fst (mcp_endpoint isInitializeRequest client req script w) =
       Normal (Handled opened results)) /\
  (sid <> "" -> forall req', mcp_session_id req' = Some sid ->
   lookup_session req' w' = Some opened).
Proof.
  intros Hl Hh Hg opened w'. subst w'.
  rewrite (mcp_endpoint_handshake isInitializeRequest client req script w Hl Hh).
  rewrite snd_respond.
  assert (Ht : transports (snd (handleRequest client
                 {| transport_id := allocated w; sessionId := None |} script
                 (constructed w))) = <[sid := opened]> (transports w)).
  { rewrite handleRequest_fresh by reflexivity. rewrite Hg. reflexivity. }
  split; [exact Ht|]. split; [apply handleRequest_allocated|]. split.
  - intros Hr.
    destruct (handleRequest_completes client
                {| transport_id := allocated w; sessionId := None |} script
                (constructed w) Hr) as (results & H).
    exists results. apply fst_respond_Normal. rewrite H.
    unfold initialised_by. simpl. rewrite Hg. reflexivity.
  - intros Hne req' Hreq'.
    destruct (lookup_session_header req' sid
                (snd (handleRequest client
                        {| transport_id := allocated w; sessionId := None |} script
                        (constructed w))) Hreq' Hne) as (-> & _).
    rewrite Ht. apply lookup_insert_eq.
Qed.

Lemma handshake_registers_session_witness :
  fst (mcp_endpoint has_initialize_method Sample.client Sample.handshake
         [SessionInitialized "session-2"] Sample.flaky_world) =
    Normal (Handled {| transport_id := 1; sessionId := Some "session-2" |} []) /\
  lookup_session (Sample.call_on "session-2")
    (snd (mcp_endpoint has_initialize_method Sample.client Sample.handshake
            [SessionInitialized "session-2"] Sample.flaky_world)) =
    Some {| transport_id := 1; sessionId := Some "session-2" |}.
Proof.
  assert (Hne : "session-2" <> "") by discriminate.
  destruct (handshake_registers_session has_initialize_method Sample.client
              Sample.handshake [SessionInitialized "session-2"] Sample.flaky_world
              "session-2" eq_refl eq_refl eq_refl) as (_ & _ & Hanswer & Hfound).
  split.
  - destruct (Hanswer eq_refl) as (results & H).
    rewrite H. vm_compute in H. injection H as <-. reflexivity.
  - exact (Hfound Hne (Sample.call_on "session-2") eq_refl).
Defined.

(** X9. When the handling of a handshake is rejected, the client gets the
    500 body (code -32603, "Internal error", the error's message as data),
    and what was done before the rejection stays done: a session the SDK
    had already announced remains in the table. *)
Theorem rejected_handshake_keeps_session (isInitializeRequest : option JValue -> bool)
    (client : VercelApiClient) (req : HttpRequest) (pre rest : list SdkStep)
    (e : Thrown) (w : World) :
  lookup_session req w = None ->
  is_handshake isInitializeRequest req = true ->
  rejects pre = false ->
  let outcome :=
    mcp_endpoint isInitializeRequest client req (pre ++ Reject e :: rest) w in
  fst outcome =
    Normal (JsonRpcError 500 (-32603) "Internal error"
              (Some (match e with
                     | JsError m => m
                     | NonError _ => "Unknown error"
                     end))) /\
  transports (snd outcome) =
    match generated pre with
    | Some sid => <[sid := {| transport_id := allocated w; sessionId := Some sid |}]>
                    (transports w)
    | None => transports w
    end.
Proof.
  intros Hl Hh Hr outcome. subst outcome.
  rewrite (mcp_endpoint_handshake isInitializeRequest client req _ w Hl Hh).
  split.
  - rewrite (handleRequest_rejected client _ pre rest e _ Hr). reflexivity.
  - rewrite snd_respond, handleRequest_fresh by reflexivity.
    rewrite (generated_before_reject pre rest e Hr). reflexivity.
Qed.

Lemma rejected_handshake_keeps_session_witness :
  fst (mcp_endpoint has_initialize_method Sample.client Sample.handshake
         [SessionInitialized "session-2"; Reject (JsError "stream closed")]
         Sample.flaky_world) =
    Normal (JsonRpcError 500 (-32603) "Internal error" (Some "stream closed")) /\
  transports (snd (mcp_endpoint has_initialize_method Sample.client Sample.handshake
                     [SessionInitialized "session-2"; Reject (JsError "stream closed")]
                     Sample.flaky_world)) =
    <["session-2" := {| transport_id := 1; sessionId := Some "session-2" |}]>
      (transports Sample.flaky_world).
Proof.
  exact (rejected_handshake_keeps_session has_initialize_method Sample.client
           Sample.handshake [SessionInitialized "session-2"] []
           (JsError "stream closed") Sample.flaky_world eq_refl eq_refl eq_refl).
Defined.

(** X10. A request that carries the id of a live session goes to that
    session's transport whatever its method and body, and no transport is
    constructed for it: even a posted initialize request finds the live
    transport, and a session id the SDK would announce is ignored. The
    table changes in one case only: when the request is a DELETE and the
    SDK closes the transport, [onclose] removes the session within the
    request, and the next request that carries its id is refused. *)
Theorem live_session_request_forwarded (isInitializeRequest : option JValue -> bool)
    (client : VercelApiClient) (req : HttpRequest) (script : list SdkStep)
    (w : World) (sid : string) (found : Transport) :
  mcp_session_id req = Some sid -> sid <> "" ->
  transports w !! sid = Some found -> sessionId found = Some sid ->
  let outcome := mcp_endpoint isInitializeRequest client req script w in
  allocated (snd outcome) = allocated w /\
  (rejects script = false ->
   exists results, fst outcome = Normal (Handled found results)) /\
  transports (snd outcome) =
    (if String.eqb (method req) "DELETE" && closes script
     then delete sid (transports w) else transports w) /\
  (method req = "DELETE" -> closes script = true ->
   forall req' script',
     mcp_session_id req' = Some sid ->
     is_handshake isInitializeRequest req' = false ->
     mcp_endpoint isInitializeRequest client req' script' (snd outcome) =
       (Normal (JsonRpcError 400 (-32000) "Invalid session ID or session expired" None),
        snd outcome)).
Proof.
  intros Hsid Hne Hfound Hown outcome. subst outcome.
  destruct (lookup_session_header req sid w Hsid Hne) as (Hl & _).
  rewrite Hfound in Hl.
  rewrite (mcp_endpoint_found isInitializeRequest client req script w found Hl).
  rewrite snd_respond.
  assert (Hs : is_Some (sessionId found)) by (rewrite Hown; eexists; reflexivity).
  destruct (transport_handleRequest_live client found req script w Hs) as (H1 & H2 & _).
  assert (Hclose : transports (snd (onclose found w)) = delete sid (transports w)).
  { unfold onclose. rewrite Hown. apply truthy_string_true in Hne. rewrite Hne.
    reflexivity. }
  rewrite Hclose in H1.
  split; [exact H2|]. split; [|split; [exact H1|]].
  - intros Hr. unfold transport_handleRequest.
    destruct (String.eqb (method req) "DELETE").
    + exists []. apply fst_respond_Normal.
      apply handleDeleteRequest_completes. exact Hr.
    + destruct (handleRequest_completes client found script w Hr) as (results & H).
      exists results. apply fst_respond_Normal. rewrite H.
      unfold initialised_by. rewrite Hown. reflexivity.
  - intros Hm Hc req' script' Hsid' Hh'.
    rewrite Hm, Hc in H1. simpl in H1.
    destruct (lookup_session_header req' sid
                (snd (transport_handleRequest client found req script w)) Hsid' Hne)
      as (Hl' & Ht').
    rewrite H1, lookup_delete_eq in Hl'.
    apply mcp_endpoint_invalid; assumption.
Qed.

Lemma live_session_request_forwarded_witness :
  (transports (snd (mcp_endpoint has_initialize_method Sample.client
                      {| method := "POST"; mcp_session_id := Some "session-1";
                         body := Some Sample.initialize_body |}
                      [SessionInitialized "session-9"] Sample.flaky_world)) =
     transports Sample.flaky_world /\
   exists results,
     fst (mcp_endpoint has_initialize_method Sample.client
            {| method := "POST"; mcp_session_id := Some "session-1";
               body := Some Sample.initialize_body |}
            [SessionInitialized "session-9"] Sample.flaky_world) =
       Normal (Handled Sample.live_transport results)) /\
  transports (snd (mcp_endpoint has_initialize_method Sample.client
                     {| method := "DELETE"; mcp_session_id := Some "session-1";
                        body := None |}
                     [TransportClose] Sample.flaky_world)) =
    delete "session-1" (transports Sample.flaky_world).
Proof.
  assert (Hne : "session-1" <> "") by discriminate.
  split.
  - destruct (live_session_request_forwarded has_initialize_method Sample.client
                {| method := "POST"; mcp_session_id := Some "session-1";
                   body := Some Sample.initialize_body |}
                [SessionInitialized "session-9"] Sample.flaky_world
                "session-1" Sample.live_transport eq_refl Hne eq_refl eq_refl)
      as (_ & H2 & H3 & _).
    split; [exact H3 | exact (H2 eq_refl)].
  - exact (proj1 (proj2 (proj2
             (live_session_request_forwarded has_initialize_method Sample.client
                {| method := "DELETE"; mcp_session_id := Some "session-1";
                   body := None |}
                [TransportClose] Sample.flaky_world
                "session-1" Sample.live_transport eq_refl Hne eq_refl eq_refl)))).
Defined.

(** X11. Only a POST opens a session: a request with another method that
    finds no live session is refused even if its body is an initialize
    request, with the invalid-session error when it carries a non-empty id
    and with the missing-session error otherwise; nothing changes. *)
Theorem only_post_opens_session (isInitializeRequest : option JValue -> bool)
    (client : VercelApiClient) (req : HttpRequest) (script : list SdkStep) (w : World) :
  method req <> "POST" -> lookup_session req w = None ->
  mcp_endpoint isInitializeRequest client req script w =
    (Normal (JsonRpcError 400 (-32000)
               (if truthy_opt_string (mcp_session_id req)
                then "Invalid session ID or session expired"
                else "No session ID provided. Initialize first.") None), w).
Proof.
  intros Hm Hl.
  assert (Hh : is_handshake isInitializeRequest req = false).
  { unfold is_handshake. apply String.eqb_neq in Hm. rewrite Hm. reflexivity. }
  destruct (truthy_opt_string (mcp_session_id req)) eqn:Ht.
  - apply mcp_endpoint_invalid; assumption.
  - apply mcp_endpoint_missing; assumption.
Qed.

Lemma only_post_opens_session_witness :
  mcp_endpoint has_initialize_method Sample.client
      {| method := "GET"; mcp_session_id := None; body := Some Sample.initialize_body |}
      [SessionInitialized "session-2"] Sample.flaky_world =
    (Normal (JsonRpcError 400 (-32000) "No session ID provided. Initialize first." None),
     Sample.flaky_world).
Proof.
  assert (Hm : "GET" <> "POST") by discriminate.
  exact (only_post_opens_session has_initialize_method Sample.client
           {| method := "GET"; mcp_session_id := None;
              body := Some Sample.initialize_body |}
           [SessionInitialized "session-2"] Sample.flaky_world Hm eq_refl).
Defined.

(** ** The session table over time *)

Section TableFacts.

Variable isInitializeRequest : option JValue -> bool.
Variable client : VercelApiClient.

Lemma serve_table_invariants (e : Event) (w : World) :
  keyed_by_sessionId w /\ transports_allocated w /\ one_transport_per_session w ->
  keyed_by_sessionId (snd (serve isInitializeRequest client e w)) /\
  transports_allocated (snd (serve isInitializeRequest client e w)) /\
  one_transport_per_session (snd (serve isInitializeRequest client e w)).
Proof.
  intros (Hk & Ha & Ho). split; [apply serve_keyed; exact Hk|].
  unfold transports_allocated, one_transport_per_session.
  destruct (serve_table isInitializeRequest client e w Hk)
    as (Hmono & [Hsub | (req & script & new & _ & _ & _ & _ & Ht & Hal)]).
  - split.
    + intros sid t Hl. specialize (Ha sid t (Hsub sid t Hl)). lia.
    + intros sid sid' t t' Hl Hl'. exact (Ho sid sid' t t' (Hsub _ _ Hl) (Hsub _ _ Hl')).
  - rewrite Ht, Hal. split.
    + intros sid t. rewrite lookup_insert. case_decide.
      * intros [= <-]. simpl. lia.
      * intros Hl. specialize (Ha sid t Hl). lia.
    + intros sid sid' t t'. rewrite !lookup_insert.
      repeat case_decide; subst; try congruence.
      * intros [= <-] Hl' Hid. simpl in Hid. specialize (Ha sid' t' Hl'). lia.
      * intros Hl [= <-] Hid. simpl in Hid. specialize (Ha sid t Hl). lia.
      * apply Ho.
Qed.

Lemma run_table_invariants (events : list Event) (w : World) :
  keyed_by_sessionId w /\ transports_allocated w /\ one_transport_per_session w ->
  keyed_by_sessionId (snd (run isInitializeRequest client events w)) /\
  transports_allocated (snd (run isInitializeRequest client events w)) /\
  one_transport_per_session (snd (run isInitializeRequest client events w)).
Proof.
  revert w. induction events as [|e rest IH]; intros w Hw; [exact Hw|].
  rewrite run_cons. simpl snd. apply IH. apply serve_table_invariants. exact Hw.
Qed.

End TableFacts.

(** X12. Whatever a server that started with an empty table has been
    through, every transport in its table sits under its own session id,
    was constructed by the server, and sits under that one id only: no
    two sessions share a transport. *)
Theorem session_table_invariants (isInitializeRequest : option JValue -> bool)
    (client : VercelApiClient) (events : list Event) (w0 : World) :
  transports w0 = ∅ ->
  let w := snd (run isInitializeRequest client events w0) in
  (forall sid t, transports w !! sid = Some t ->
     sessionId t = Some sid /\ transport_id t < allocated w) /\
  (forall sid sid' t t',
     transports w !! sid = Some t -> transports w !! sid' = Some t' ->
     transport_id t = transport_id t' -> sid = sid').
Proof.
  intros Hempty w.
  destruct (run_table_invariants isInitializeRequest client events w0) as (Hk & Ha & Ho).
  { repeat split; intros sid; intros; rewrite Hempty, lookup_empty in *; discriminate. }
  split; [|exact Ho].
  intros sid t Hl. split; [exact (Hk sid t Hl) | exact (Ha sid t Hl)].
Qed.

Lemma session_table_invariants_witness :
  sessionId {| transport_id := 0; sessionId := Some "session-1" |} = Some "session-1" /\
  0 < allocated (snd (run has_initialize_method Sample.client
                        Sample.early_call_then_handshake
                        (Sample.world_with (Sample.json_reply Sample.probe_body)))).
Proof.
  assert (Hl : transports (snd (run has_initialize_method Sample.client
                                  Sample.early_call_then_handshake
                                  (Sample.world_with (Sample.json_reply Sample.probe_body))))
                 !! "session-1" = Some {| transport_id := 0; sessionId := Some "session-1" |})
    by (vm_compute; reflexivity).
  exact (proj1 (session_table_invariants has_initialize_method Sample.client
                  Sample.early_call_then_handshake
                  (Sample.world_with (Sample.json_reply Sample.probe_body))
                  eq_refl) "session-1" _ Hl).
Defined.

(** X13. Closing a transport removes the session stored under its id and
    no other; closing it again, or closing a transport that never got a
    session id, changes nothing. *)
Theorem close_removes_own_session (isInitializeRequest : option JValue -> bool)
    (client : VercelApiClient) (t : Transport) (w : World) :
  let closed := snd (serve isInitializeRequest client (TransportClosed t) w) in
  (forall sid, sessionId t = Some sid -> sid <> "" -> transports closed !! sid = None) /\
  (forall sid, sessionId t <> Some sid -> transports closed !! sid = transports w !! sid) /\
  snd (serve isInitializeRequest client (TransportClosed t) closed) = closed /\
  (sessionId t = None -> closed = w).
Proof.
  cbv zeta. simpl. unfold onclose.
  destruct (sessionId t) as [own|] eqn:Hs.
  2:{ repeat split; try discriminate; destruct w; reflexivity. }
  destruct (truthy_string own) eqn:Ht; simpl.
  - split; [|split; [|split]].
    + intros sid [= <-] _. apply lookup_delete_eq.
    + intros sid Hne. apply lookup_delete_ne. congruence.
    + unfold Map_delete, with_transports; simpl. rewrite delete_delete_eq. reflexivity.
    + discriminate.
  - apply truthy_string_false in Ht. subst own.
    split; [|split; [|split]].
    + intros sid [= <-] Hne. congruence.
    + reflexivity.
    + reflexivity.
    + discriminate.
Qed.

Lemma close_removes_own_session_witness :
  transports (snd (serve has_initialize_method Sample.client
                     (TransportClosed Sample.live_transport) Sample.flaky_world))
    !! "session-1" = None.
Proof.
  assert (Hne : "session-1" <> "") by discriminate.
  exact (proj1 (close_removes_own_session has_initialize_method Sample.client
                  Sample.live_transport Sample.flaky_world)
               "session-1" eq_refl Hne).
Defined.

(** X14. The health probe changes nothing and reports the client's status,
    the time and the number of sessions in the table. That number goes up
    by one with a handshake that announces a session id not yet in the
    table, down by one when the transport of a live session closes, and
    stays as it is when a request is refused. *)
Theorem health_counts_sessions (isInitializeRequest : option JValue -> bool)
    (client : VercelApiClient) (w : World) :
  health_endpoint client w =
    (Normal {| health_status := "ok"; health_timestamp := clock w;
               health_server := "ftc-platform-mcp"; health_version := "1.0.0";
               health_apiClient := getStatus client;
               activeSessions := size (transports w) |}, w) /\
  (forall req script sid,
     lookup_session req w = None -> is_handshake isInitializeRequest req = true ->
     generated script = Some sid -> transports w !! sid = None ->
     size (transports (snd (mcp_endpoint isInitializeRequest client req script w))) =
       S (size (transports w))) /\
  (forall t sid,
     sessionId t = Some sid -> sid <> "" -> is_Some (transports w !! sid) ->
     S (size (transports (snd (serve isInitializeRequest client (TransportClosed t) w)))) =
       size (transports w)) /\
  (forall req script,
     lookup_session req w = None -> is_handshake isInitializeRequest req = false ->
     size (transports (snd (mcp_endpoint isInitializeRequest client req script w))) =
       size (transports w)).
Proof.
  split; [reflexivity|]. split; [|split].
  - intros req script sid Hl Hh Hg Hnew.
    rewrite (mcp_endpoint_handshake isInitializeRequest client req script w Hl Hh).
    rewrite snd_respond, handleRequest_fresh by reflexivity. rewrite Hg.
    apply map_size_insert_None. exact Hnew.
  - intros t sid Hs Hne [live Hlive]. simpl. unfold onclose. rewrite Hs.
    apply truthy_string_true in Hne. rewrite Hne. simpl.
    rewrite map_size_delete, Hlive.
    assert (size (transports w) <> 0).
    { intros H0. apply map_size_empty_inv in H0. rewrite H0, lookup_empty in Hlive.
      discriminate. }
    simpl. lia.
  - intros req script Hl Hh.
    destruct (truthy_opt_string (mcp_session_id req)) eqn:Ht.
    + rewrite (mcp_endpoint_invalid _ _ _ _ _ Hl Hh Ht). reflexivity.
    + rewrite (mcp_endpoint_missing _ _ _ _ _ Hh Ht). reflexivity.
Qed.

Lemma health_counts_sessions_witness :
  size (transports (snd (mcp_endpoint has_initialize_method Sample.client
                           Sample.handshake [SessionInitialized "session-2"]
                           Sample.flaky_world))) =
    S (size (transports Sample.flaky_world)).
Proof.
  exact (proj1 (proj2 (health_counts_sessions has_initialize_method Sample.client
                         Sample.flaky_world))
               Sample.handshake [SessionInitialized "session-2"] "session-2"
               eq_refl eq_refl eq_refl eq_refl).
Defined.

(** ** Start-up: the port and the errors *)

Lemma digit_value_pretty (x : N) :
  (x < 10)%N -> digit_value (pretty_N_char x) = Some (Z.of_N x).
Proof.
  intros Hx.
  assert (x = 0 \/ x = 1 \/ x = 2 \/ x = 3 \/ x = 4 \/ x = 5 \/ x = 6 \/ x = 7
          \/ x = 8 \/ x = 9)%N as H by lia.
  repeat (destruct H as [-> | H]; [reflexivity|]). subst x. reflexivity.
Qed.

(** Reading the digits [pretty_N_go] writes gives the number back. *)
Lemma leading_digits_pretty_go (x : N) :
  (0 < x)%N ->
  exists p : Z, forall acc seen s,
    leading_digits acc seen (pretty_N_go x s) =
    leading_digits (acc * p + Z.of_N x) true s.
Proof.
  induction (N.lt_wf_0 x) as [x _ IH]. intros Hx.
  destruct (decide (x `div` 10 = 0)%N) as [Hz | Hnz].
  - exists 10%Z. intros acc seen s.
    rewrite pretty_N_go_step by exact Hx. rewrite Hz, pretty_N_go_0. simpl.
    rewrite digit_value_pretty by (apply N.mod_lt; lia).
    f_equal. apply N.div_small_iff in Hz; [|lia].
    rewrite N.mod_small by exact Hz. lia.
  - assert (Hlt : (x `div` 10 < x)%N) by (apply N.div_lt; lia).
    assert (Hq : (0 < x `div` 10)%N) by (apply N.neq_0_lt_0; exact Hnz).
    destruct (IH (x `div` 10)%N Hlt Hq) as (p & Hp).
    exists (10 * p)%Z. intros acc seen s.
    rewrite pretty_N_go_step by exact Hx. rewrite Hp. simpl.
    rewrite digit_value_pretty by (apply N.mod_lt; lia).
    f_equal. pose proof (N.div_mod x 10). lia.
Qed.

Lemma pretty_N_go_first_digit (x : N) (s : string) :
  (0 < x)%N ->
  exists k rest, (k < 10)%N /\ pretty_N_go x s = String (pretty_N_char k) rest.
Proof.
  revert s. induction (N.lt_wf_0 x) as [x _ IH]. intros s Hx.
  rewrite pretty_N_go_step by exact Hx.
  destruct (decide (x `div` 10 = 0)%N) as [Hz | Hnz].
  - rewrite Hz, pretty_N_go_0. exists (x `mod` 10)%N, s. split; [|reflexivity].
    apply N.mod_lt. lia.
  - assert (Hlt : (x `div` 10 < x)%N) by (apply N.div_lt; lia).
    assert (Hq : (0 < x `div` 10)%N) by (apply N.neq_0_lt_0; exact Hnz).
    exact (IH (x `div` 10)%N Hlt _ Hq).
Qed.

Lemma skip_white_space_digit (k : N) (rest : string) :
  (k < 10)%N ->
  skip_white_space (String (pretty_N_char k) rest) = String (pretty_N_char k) rest /\
  Nat.eqb (Ascii.nat_of_ascii (pretty_N_char k)) 45 = false /\
  Nat.eqb (Ascii.nat_of_ascii (pretty_N_char k)) 43 = false.
Proof.
  intros Hk.
  assert (k = 0 \/ k = 1 \/ k = 2 \/ k = 3 \/ k = 4 \/ k = 5 \/ k = 6 \/ k = 7
          \/ k = 8 \/ k = 9)%N as H by lia.
  repeat (destruct H as [-> | H];
          [destruct rest as [|b [|c r3]]; repeat split; reflexivity|]).
  subst k. destruct rest as [|b [|c r3]]; repeat split; reflexivity.
Qed.

Lemma parseInt10_pretty_N (n : N) : parseInt10 (pretty n) = Some (Z.of_N n).
Proof.
  unfold pretty, pretty_N. destruct (decide (n = 0%N)) as [-> | Hn]; [reflexivity|].
  assert (Hpos : (0 < n)%N) by lia.
  destruct (pretty_N_go_first_digit n "" Hpos) as (k & rest & Hk & Hfirst).
  destruct (skip_white_space_digit k rest Hk) as (Hskip & Hminus & Hplus).
  unfold parseInt10. rewrite Hfirst, Hskip, Hminus, Hplus. rewrite <- Hfirst.
  destruct (leading_digits_pretty_go n Hpos) as (p & Hp). rewrite Hp. reflexivity.
Qed.

Lemma parseInt10_pretty_Z (z : Z) : parseInt10 (pretty z) = Some z.
Proof.
  destruct z as [|q|q].
  - reflexivity.
  - change (pretty (Z.pos q)) with (pretty (N.pos q)).
    rewrite parseInt10_pretty_N. reflexivity.
  - change (pretty (Z.neg q)) with ("-" +:+ pretty (N.pos q)).
    pose proof (parseInt10_pretty_N (N.pos q)) as Hq.
    unfold pretty, pretty_N in Hq |- *.
    destruct (decide (N.pos q = 0%N)) as [Hz|_]; [discriminate Hz|].
    destruct (pretty_N_go_first_digit (N.pos q) "" eq_refl) as (k & rest & Hk & Hfirst).
    destruct (skip_white_space_digit k rest Hk) as (Hskip & Hminus & Hplus).
    unfold parseInt10 in *. rewrite Hfirst in *. rewrite Hskip, Hminus, Hplus in Hq.
    assert (Hs : skip_white_space ("-" +:+ String (pretty_N_char k) rest) =
                 "-" +:+ String (pretty_N_char k) rest).
    { destruct rest as [|c r3]; reflexivity. }
    rewrite Hs. simpl. simpl in Hq. rewrite Hq. reflexivity.
Qed.

Lemma skip_white_space_ascii (c : Ascii.ascii) (rest : string) :
  is_space_byte c = false -> Ascii.nat_of_ascii c < 128 ->
  skip_white_space (String c rest) = String c rest.
Proof.
  intros Hs Hc. simpl. rewrite Hs.
  assert (H2 : forall b, is_space_2 c b = false).
  { intros b. unfold is_space_2.
    replace (Nat.eqb (Ascii.nat_of_ascii c) 194) with false
      by (symmetry; apply Nat.eqb_neq; lia). reflexivity. }
  assert (H3 : forall b d, is_space_3 c b d = false).
  { intros b d. unfold is_space_3.
    replace (Nat.eqb (Ascii.nat_of_ascii c) 225) with false
      by (symmetry; apply Nat.eqb_neq; lia).
    replace (Nat.eqb (Ascii.nat_of_ascii c) 226) with false
      by (symmetry; apply Nat.eqb_neq; lia).
    replace (Nat.eqb (Ascii.nat_of_ascii c) 227) with false
      by (symmetry; apply Nat.eqb_neq; lia).
    replace (Nat.eqb (Ascii.nat_of_ascii c) 239) with false
      by (symmetry; apply Nat.eqb_neq; lia).
    reflexivity. }
  destruct rest as [|b [|d r3]]; rewrite ?H2, ?H3; reflexivity.
Qed.

(** X16. The port is 3001 when [MCP_PORT] is absent or empty. A value
    that is the decimal numeral of an integer (below 2^53 in size) gives
    that integer. A value that starts with an ASCII character that is not
    white space, a sign or a digit gives [NaN]. *)
Theorem server_port_of_env (env : Env) :
  (env !! "MCP_PORT" = None \/ env !! "MCP_PORT" = Some "" ->
   server_port env = Some 3001%Z) /\
  (forall z : Z, (Z.abs z < 2 ^ 53)%Z -> env !! "MCP_PORT" = Some (pretty z) ->
   server_port env = Some z) /\
  (forall c rest,
     env !! "MCP_PORT" = Some (String c rest) ->
     Ascii.nat_of_ascii c < 128 -> is_space_byte c = false ->
     digit_value c = None ->
     Ascii.nat_of_ascii c <> 45 -> Ascii.nat_of_ascii c <> 43 ->
     server_port env = None).
Proof.
  unfold server_port. split; [|split].
  - intros [-> | ->]; reflexivity.
  - intros z _ ->.
    assert (Hne : truthy_string (pretty z) = true).
    { pose proof (parseInt10_pretty_Z z) as H.
      destruct (pretty z); [discriminate H | reflexivity]. }
    rewrite Hne. apply parseInt10_pretty_Z.
  - intros c rest -> Hc Hs Hd Hm Hp. simpl. unfold parseInt10.
    rewrite (skip_white_space_ascii c rest Hs Hc).
    apply Nat.eqb_neq in Hm, Hp. rewrite Hm, Hp. simpl. rewrite Hd. reflexivity.
Qed.

Lemma server_port_of_env_witness :
  server_port ∅ = Some 3001%Z /\
  server_port {[ "MCP_PORT" := "3030" ]} = Some 3030%Z /\
  server_port {[ "MCP_PORT" := "default" ]} = None.
Proof.
  split; [|split].
  - exact (proj1 (server_port_of_env ∅) (or_introl eq_refl)).
  - assert (Hb : (Z.abs 3030 < 2 ^ 53)%Z) by reflexivity.
    exact (proj1 (proj2 (server_port_of_env {[ "MCP_PORT" := "3030" ]}))
             3030%Z Hb eq_refl).
  - assert (Hc : Ascii.nat_of_ascii (Ascii.ascii_of_nat 100) < 128)
      by (vm_compute; lia).
    assert (Hm : Ascii.nat_of_ascii (Ascii.ascii_of_nat 100) <> 45)
      by (intros H; vm_compute in H; discriminate H).
    assert (Hp : Ascii.nat_of_ascii (Ascii.ascii_of_nat 100) <> 43)
      by (intros H; vm_compute in H; discriminate H).
    exact (proj2 (proj2 (server_port_of_env {[ "MCP_PORT" := "default" ]}))
             (Ascii.ascii_of_nat 100) "efault" eq_refl Hc eq_refl eq_refl Hm Hp).
Defined.

(** X17. Start-up fails with one of two errors, and the key comes first:
    without a non-empty [MASTRA_API_KEY] the error is the client's
    "MASTRA_API_KEY environment variable is required", whatever the base
    URL; with the key and an empty [VERCEL_API_BASE_URL] it is the
    configuration error, which then always shows an empty base URL and
    "Has API Key: true". With the key and a non-empty base URL the server
    is constructed on exactly that URL and an empty session table. *)
Theorem startup_errors (env : Env) :
  (truthy_opt_string (env !! "MASTRA_API_KEY") = false ->
   new_FtcMcpServer env =
     Abrupt (JsError "MASTRA_API_KEY environment variable is required")) /\
  (forall k, env !! "MASTRA_API_KEY" = Some k -> k <> "" ->
   env !! "VERCEL_API_BASE_URL" = Some "" ->
   new_FtcMcpServer env =
     Abrupt (JsError ("MCP Server configuration invalid:" +:+ LF
       +:+ "- Base URL: " +:+ LF
       +:+ "- Has API Key: true" +:+ LF +:+ LF
       +:+ "Please ensure VERCEL_API_BASE_URL and MASTRA_API_KEY are set in your environment."))) /\
  (forall k u, env !! "MASTRA_API_KEY" = Some k -> k <> "" ->
   env !! "VERCEL_API_BASE_URL" = Some u -> u <> "" ->
   new_FtcMcpServer env =
     Normal {| apiClient := {| baseUrl := u; apiKey := k |};
               initial_transports := ∅ |}).
Proof.
  unfold new_FtcMcpServer, new_VercelApiClient. split; [|split].
  - intros Hk. destruct (env !! "MASTRA_API_KEY") as [k|]; simpl in *.
    + rewrite Hk. reflexivity.
    + reflexivity.
  - intros k Hk Hne Hu. rewrite Hk, Hu. simpl.
    apply truthy_string_true in Hne. rewrite Hne. simpl.
    unfold validateConfiguration, getStatus. simpl. rewrite Hne. reflexivity.
  - intros k u Hk Hne Hu Hune. rewrite Hk, Hu. simpl.
    apply truthy_string_true in Hne, Hune. rewrite Hne. simpl.
    unfold validateConfiguration, getStatus. simpl. rewrite Hne, Hune. reflexivity.
Qed.

Lemma startup_errors_witness :
  new_FtcMcpServer (<[ "VERCEL_API_BASE_URL" := "" ]> ∅) =
    Abrupt (JsError "MASTRA_API_KEY environment variable is required") /\
  new_FtcMcpServer Sample.env_full =
    Normal {| apiClient := Sample.client; initial_transports := ∅ |}.
Proof.
  assert (Hk : "secret" <> "") by discriminate.
  assert (Hu : "https://ftc.example/api/mastra" <> "") by discriminate.
  split.
  - exact (proj1 (startup_errors (<[ "VERCEL_API_BASE_URL" := "" ]> ∅)) eq_refl).
  - exact (proj2 (proj2 (startup_errors Sample.env_full))
             "secret" "https://ftc.example/api/mastra" eq_refl Hk eq_refl Hu).
Defined.
